(** * cfn: template-driven resource search, status filters

    A shallow embedding of the Go sources of the [cfn] command-line tool
    (cmd/search.go, cmd/list.go and the stand-alone main.go) together with
    the properties its specification states about them.

    Go maps are finite maps with string keys ([gmap string _]); a [range]
    over a map visits the entries of [map_to_list].  Go leaves that order
    open: the loops are functions of the list of entries, and the
    statements speak of membership or hold for every order.  The
    dynamically typed [interface{}] values produced by the JSON and YAML
    decoders are the constructors of [value].  Library functions whose text
    is not part of the repository ([fmt.Sprintf], [strings.ToLower], the two
    decoders) and the AWS client are fields of the classes [GoLib] and
    [Cfn]. *)

From Stdlib Require Ascii.
From stdpp Require Import gmap strings list fin_maps pretty.
Import Ascii.AsciiSyntax.
Delimit Scope char_scope with char.

Set Warnings "-register-all".
Set Default Proof Using "Type".

(** ** Package [strings] on byte strings *)

Module strings.

(** [s[:n]] and [s[n:]] for [n <= len(s)]. *)
Definition slice_to (n : nat) (s : string) : string := String.substring 0 n s.
Definition slice_from (n : nat) (s : string) : string :=
  String.substring n (String.length s - n) s.

(** [strings.HasPrefix]:
    [len(s) >= len(prefix) && s[:len(prefix)] == prefix]. *)
Definition HasPrefix (s prefix : string) : bool :=
  bool_decide (String.length prefix ≤ String.length s)
  && String.eqb (slice_to (String.length prefix) s) prefix.

(** [strings.HasSuffix]:
    [len(s) >= len(suffix) && s[len(s)-len(suffix):] == suffix]. *)
Definition HasSuffix (s suffix : string) : bool :=
  bool_decide (String.length suffix ≤ String.length s)
  && String.eqb (slice_from (String.length s - String.length suffix) s) suffix.

(** [strings.Contains(s, substr)], that is [strings.Index(s, substr) >= 0]:
    some offset of [s] starts with [substr]. *)
Fixpoint Contains (s substr : string) : bool :=
  HasPrefix s substr
  || match s with
     | EmptyString => false
     | String _ rest => Contains rest substr
     end.

(** [strings.Split(s, sep)] for a one-byte separator: the pieces between
    the occurrences of [sep], always at least one piece. *)
Fixpoint Split (s : string) (sep : Ascii.ascii) : list string :=
  match s with
  | EmptyString => [EmptyString]
  | String c rest =>
      if Ascii.eqb c sep then EmptyString :: Split rest sep
      else match Split rest sep with
           | piece :: pieces => String c piece :: pieces
           | [] => [String c EmptyString]
           end
  end.

(** The text before and after the first occurrence of [sep], if any. *)
Fixpoint Cut (s : string) (sep : Ascii.ascii) : option (string * string) :=
  match s with
  | EmptyString => None
  | String c rest =>
      if Ascii.eqb c sep then Some (EmptyString, rest)
      else match Cut rest sep with
           | Some (before, after) => Some (String c before, after)
           | None => None
           end
  end.

(** [strings.SplitN(s, sep, 2)] for a one-byte separator: [s] alone when
    it has no separator, else the text before the first one and the rest. *)
Definition SplitN2 (s : string) (sep : Ascii.ascii) : list string :=
  match Cut s sep with
  | None => [s]
  | Some (before, after) => [before; after]
  end.

(** ASCII lower-casing, the part of [strings.ToLower] that the service's
    identifiers exercise. *)
Definition lower_byte (c : Ascii.ascii) : Ascii.ascii :=
  let n := Ascii.nat_of_ascii c in
  if bool_decide (65 ≤ n ≤ 90) then Ascii.ascii_of_nat (n + 32) else c.

Fixpoint ToLowerASCII (s : string) : string :=
  match s with
  | EmptyString => EmptyString
  | String c rest => String (lower_byte c) (ToLowerASCII rest)
  end.

End strings.

(** ** Dynamically typed documents *)

(** What [json.Unmarshal] and [yaml.Unmarshal] store in an [interface{}]:
    [nil] for null, [bool], [float64] (kept as its IEEE-754 bit pattern),
    [int] (YAML only), [string], [[]interface{}] and
    [map[string]interface{}].  [VOther] stands for the remaining dynamic
    types of the YAML decoder (a timestamp, a map with non-string keys);
    the code only ever fails a type assertion on them. *)
Inductive value : Type :=
| VNil
| VBool (b : bool)
| VFloat (bits : Z)
| VInt (n : Z)
| VString (s : string)
| VSlice (l : list value)
| VMap (m : gmap string value)
| VOther (tag : nat).

(** Go's [error], kept as its message. *)
Definition error : Type := string.

Inductive result (A : Type) : Type :=
| Ok (a : A)
| Err (e : error).
Arguments Ok {A} a.
Arguments Err {A} e.

(** Library functions used by the sources. *)
Class GoLib : Type := {
  (** [fmt.Sprintf("%v", v)] *)
  Sprintf_v : value → string;
  (** [strings.ToLower] *)
  ToLower : string → string;
  (** [json.Unmarshal([]byte(body), &template)] on a nil [template]:
      the decoded map, or the error (the target is then left nil). *)
  json_Unmarshal : string → result (gmap string value);
  (** [yaml.Unmarshal([]byte(body), &template)], likewise. *)
  yaml_Unmarshal : string → result (gmap string value);
}.

(** [types.StackSummary], the fields the sources read. *)
Record StackSummary : Type := {
  StackName : option string;
  StackStatus : string;
}.

(** The AWS client and the helpers of package [cmd] whose text is not among
    the sources. *)
Class Cfn : Type := {
  Client : Type;
  (** [mustClient(ctx)]: the client, or [None] when it exits fatally. *)
  mustClient : option Client;
  (** [client.GetTemplate] for a stack name at the original template stage:
      [output.TemplateBody] (a [*string]) or the error. *)
  GetTemplate : Client → string → result (option string);
  (** [getValue], from [*string] to [string]. *)
  getValue : option string → string;
  StatusFilters : Type;
  buildStatusFilters : bool → bool → bool → bool → StatusFilters;
  (** [listStacks(ctx, client, statusFilters, name, desc, noDesc)] *)
  listStacks :
    Client → StatusFilters → string → string → string →
    result (list StackSummary);
}.

(** ** Package [cmd] *)

Module cmd.

(** [resourceMatch] and [stackMatch]; a nil [matchedProperties] is the
    empty map. *)
Record resourceMatch : Type := {
  logicalID : string;
  resourceType : string;
  matchedProperties : gmap string value;
}.

Record stackMatch : Type := {
  stackName : string;
  resources : list resourceMatch;
}.

(** Calls that reach the service, in the order they are made. *)
Inductive event : Type :=
| ListStacksCall
| GetTemplateCall (name : string).

(** [fatalf] with its format and arguments. *)
Inductive fatal : Type :=
| no_client
    (* mustClient gave up *)
| name_filter_twice
    (* "Error: name filter specified both as argument and --name flag\n" *)
| invalid_property_format (prop : string)
    (* "invalid property format %q, expected key=value\n", prop *)
| failed_to_list_stacks (err : error)
    (* "failed to list stacks: %v\n", err *).

(** How a command ends: [fatalf], [os.Exit(1)] after its message, or a
    normal return after printing the stacks found. *)
Inductive outcome : Type :=
| Fatal (f : fatal)
| Exit1
| Searched (matchingStacks : list stackMatch)
| Listed (stacks : list StackSummary).

Definition is_nil (v : value) : bool :=
  match v with VNil => true | _ => false end.

(** The body of [getNestedProperty]'s loop over [parts], from [current]. *)
Fixpoint getNestedWalk (current : value) (parts : list string) : value :=
  match parts with
  | [] => current
  | part :: parts =>
      match current with
      | VMap currentMap =>
          match currentMap !! part with
          | Some val => getNestedWalk val parts
          | None => VNil
          end
      | _ => VNil
      end
  end.

(** [getNestedProperty] (the same text in search.go and list.go). *)
Definition getNestedProperty (properties : gmap string value) (path : string) : value :=
  getNestedWalk (VMap properties) (strings.Split path "."%char).

(** [parts] of a property token, [strings.SplitN(prop, "=", 2)], folded
    into [propertyFilters]; the first token without two parts is fatal. *)
Fixpoint parsePropertyFilters (props : list string) (propertyFilters : gmap string string) : fatal + gmap string string :=
  match props with
  | [] => inr propertyFilters
  | prop :: props =>
      match strings.SplitN2 prop "="%char with
      | [key; val] => parsePropertyFilters props (<[key := val]> propertyFilters)
      | _ => inl (invalid_property_format prop)
      end
  end.

Section checkProperties.
Context {lib : GoLib}.

(** The loop of [checkProperties] over the entries of [filters]. *)
Fixpoint checkPropertiesLoop (properties : gmap string value) (filters : list (string * string)) (matchedProps : gmap string value) : bool * gmap string value :=
  match filters with
  | [] => (true, matchedProps)
  | (key, expectedValue) :: filters =>
      let value := getNestedProperty properties key in
      if is_nil value then (false, ∅)
      else
        let valueStr := Sprintf_v value in
        if negb (String.eqb valueStr expectedValue) then (false, ∅)
        else checkPropertiesLoop properties filters (<[key := value]> matchedProps)
  end.

(** [checkProperties] (the same text in search.go and list.go). *)
Definition checkProperties (properties : gmap string value) (filters : gmap string string) : bool * gmap string value :=
  checkPropertiesLoop properties (map_to_list filters) ∅.

(** Lines 145-157 of search.go (428-435 of list.go): the body must be
    non-empty; JSON first, then YAML. *)
Definition parseTemplate (body : string) : result (gmap string value) :=
  if String.eqb body "" then Err "empty template"
  else
    match json_Unmarshal body with
    | Ok template => Ok template
    | Err _ =>
        match yaml_Unmarshal body with
        | Ok template => Ok template
        | Err err => Err ("failed to parse template: " +:+ err)
        end
    end.

End checkProperties.

(** *** cmd/search.go *)

Module search_go.

(** The flag variables of the [search] command. *)
Record flags : Type := {
  searchProperties : list string;
  searchFilterAll : bool;
  searchFilterComplete : bool;
  searchFilterDeleted : bool;
  searchFilterInProgress : bool;
}.

Section search.
Context {lib : GoLib} {aws : Cfn}.

(** The loop of [searchStackTemplate] over the entries of [resources]. *)
Fixpoint searchResources (resourceType : string) (propertyFilters : gmap string string) (resources : list (string * value)) (matches : list resourceMatch) : list resourceMatch :=
  match resources with
  | [] => matches
  | (logicalID, resourceData) :: resources =>
      match resourceData with
      | VMap resourceMap =>
          match resourceMap !! "Type" with
          | Some (VString resType) =>
              if negb (String.eqb resType resourceType) then
                searchResources resourceType propertyFilters resources matches
              else if bool_decide (0 < size propertyFilters) then
                match resourceMap !! "Properties" with
                | Some (VMap properties) =>
                    let '(matched, matchedProps) := checkProperties properties propertyFilters in
                    if negb matched then
                      searchResources resourceType propertyFilters resources matches
                    else
                      searchResources resourceType propertyFilters resources
                        (matches ++ [{| logicalID := logicalID;
                                        cmd.resourceType := resType;
                                        matchedProperties := matchedProps |}])
                | _ => searchResources resourceType propertyFilters resources matches
                end
              else
                searchResources resourceType propertyFilters resources
                  (matches ++ [{| logicalID := logicalID;
                                  cmd.resourceType := resType;
                                  matchedProperties := ∅ |}])
          | _ => searchResources resourceType propertyFilters resources matches
          end
      | _ => searchResources resourceType propertyFilters resources matches
      end
  end.

(** Lines 159-203: the resources of a parsed template that match. *)
Definition searchTemplate (template : gmap string value) (resourceType : string) (propertyFilters : gmap string string) : list resourceMatch :=
  match template !! "Resources" with
  | Some (VMap resources) =>
      searchResources resourceType propertyFilters (map_to_list resources) []
  | _ => []
  end.

(** [searchStackTemplate]: fetch, parse, search. *)
Definition searchStackTemplate (client : Client) (stackName resourceType : string) (propertyFilters : gmap string string) : result (list resourceMatch) :=
  match GetTemplate client stackName with
  | Err err => Err err
  | Ok TemplateBody =>
      match parseTemplate (getValue TemplateBody) with
      | Err err => Err err
      | Ok template => Ok (searchTemplate template resourceType propertyFilters)
      end
  end.

(** The loop of [runSearch] over [stacks] (lines 79-97); [log] collects
    the calls made. *)
Fixpoint searchStacks (client : Client) (resourceType : string) (propertyFilters : gmap string string) (stacks : list StackSummary) (matchingStacks : list stackMatch) (log : list event) : list stackMatch * list event :=
  match stacks with
  | [] => (matchingStacks, log)
  | stack :: stacks =>
      match StackName stack with
      | None => searchStacks client resourceType propertyFilters stacks matchingStacks log
      | Some name =>
          let log := log ++ [GetTemplateCall name] in
          match searchStackTemplate client name resourceType propertyFilters with
          | Err _ =>
              searchStacks client resourceType propertyFilters stacks matchingStacks log
          | Ok matches =>
              if bool_decide (0 < length matches) then
                searchStacks client resourceType propertyFilters stacks
                  (matchingStacks ++ [{| stackName := name; resources := matches |}]) log
              else
                searchStacks client resourceType propertyFilters stacks matchingStacks log
          end
      end
  end.

(** [runSearch]: how the command ends, and the calls it made. *)
Definition runSearch (fl : flags) (resourceType : string) : outcome * list event :=
  match mustClient with
  | None => (Fatal no_client, [])
  | Some client =>
      match parsePropertyFilters (searchProperties fl) ∅ with
      | inl f => (Fatal f, [])
      | inr propertyFilters =>
          let statusFilters :=
            buildStatusFilters (searchFilterAll fl) (searchFilterComplete fl)
              (searchFilterDeleted fl) (searchFilterInProgress fl) in
          match listStacks client statusFilters "" "" "" with
          | Err err => (Fatal (failed_to_list_stacks err), [ListStacksCall])
          | Ok stacks =>
              if bool_decide (length stacks = 0) then (Exit1, [ListStacksCall])
              else
                let '(matchingStacks, log) :=
                  searchStacks client resourceType propertyFilters stacks [] [ListStacksCall] in
                (Searched matchingStacks, log)
          end
      end
  end.

End search.
End search_go.

(** *** cmd/list.go *)

Module list_go.

(** The flag variables of the [list] command. *)
Record flags : Type := {
  filterAll : bool;
  filterComplete : bool;
  filterDeleted : bool;
  filterInProgress : bool;
  nameFilter : string;
  descContains : string;
  descNotContains : string;
  namesOnly : bool;
  resourceType : string;
  resourceName : string;
  properties : list string;
}.

Section list.
Context {lib : GoLib} {aws : Cfn}.

(** The loop of [searchStackTemplate] over the entries of [resources]. *)
Fixpoint searchResources (resType resName : string) (propertyFilters : gmap string string) (resources : list (string * value)) (matches : list resourceMatch) : list resourceMatch :=
  match resources with
  | [] => matches
  | (logicalID, resourceData) :: resources =>
      match resourceData with
      | VMap resourceMap =>
          match resourceMap !! "Type" with
          | Some (VString currentType) =>
              if negb (String.eqb resType "") && negb (String.eqb currentType resType) then
                searchResources resType resName propertyFilters resources matches
              else if negb (String.eqb resName "") && negb (strings.Contains logicalID resName) then
                searchResources resType resName propertyFilters resources matches
              else if bool_decide (0 < size propertyFilters) then
                match resourceMap !! "Properties" with
                | Some (VMap properties) =>
                    let '(matched, matchedProps) := checkProperties properties propertyFilters in
                    if negb matched then
                      searchResources resType resName propertyFilters resources matches
                    else
                      searchResources resType resName propertyFilters resources
                        (matches ++ [{| logicalID := logicalID;
                                        cmd.resourceType := currentType;
                                        matchedProperties := matchedProps |}])
                | _ => searchResources resType resName propertyFilters resources matches
                end
              else
                searchResources resType resName propertyFilters resources
                  (matches ++ [{| logicalID := logicalID;
                                  cmd.resourceType := currentType;
                                  matchedProperties := ∅ |}])
          | _ => searchResources resType resName propertyFilters resources matches
          end
      | _ => searchResources resType resName propertyFilters resources matches
      end
  end.

(** Lines 437-490 of the file: the resources of a parsed template that
    match. *)
Definition searchTemplate (template : gmap string value) (resType resName : string) (propertyFilters : gmap string string) : list resourceMatch :=
  match template !! "Resources" with
  | Some (VMap resources) =>
      searchResources resType resName propertyFilters (map_to_list resources) []
  | _ => []
  end.

(** [searchStackTemplate]: fetch, parse, search. *)
Definition searchStackTemplate (client : Client) (stackName resType resName : string) (propertyFilters : gmap string string) : result (list resourceMatch) :=
  match GetTemplate client stackName with
  | Err err => Err err
  | Ok TemplateBody =>
      match parseTemplate (getValue TemplateBody) with
      | Err err => Err err
      | Ok template => Ok (searchTemplate template resType resName propertyFilters)
      end
  end.

(** The loop of [runResourceSearch] over [stacks]. *)
Fixpoint searchStacks (client : Client) (resType resName : string) (propertyFilters : gmap string string) (stacks : list StackSummary) (matchingStacks : list stackMatch) (log : list event) : list stackMatch * list event :=
  match stacks with
  | [] => (matchingStacks, log)
  | stack :: stacks =>
      match StackName stack with
      | None => searchStacks client resType resName propertyFilters stacks matchingStacks log
      | Some name =>
          let log := log ++ [GetTemplateCall name] in
          match searchStackTemplate client name resType resName propertyFilters with
          | Err _ =>
              searchStacks client resType resName propertyFilters stacks matchingStacks log
          | Ok matches =>
              if bool_decide (0 < length matches) then
                searchStacks client resType resName propertyFilters stacks
                  (matchingStacks ++ [{| stackName := name; resources := matches |}]) log
              else
                searchStacks client resType resName propertyFilters stacks matchingStacks log
          end
      end
  end.

(** [runResourceSearch], entered with the calls already made in [log]. *)
Definition runResourceSearch (fl : flags) (client : Client) (stacks : list StackSummary) (namesOnly : bool) (log : list event) : outcome * list event :=
  match parsePropertyFilters (properties fl) ∅ with
  | inl f => (Fatal f, log)
  | inr propertyFilters =>
      if bool_decide (length stacks = 0) then (Exit1, log)
      else
        let '(matchingStacks, log) :=
          searchStacks client (resourceType fl) (resourceName fl) propertyFilters stacks [] log in
        (Searched matchingStacks, log)
  end.

(** [runList]: how the command ends, and the calls it made. *)
Definition runList (fl : flags) (args : list string) : outcome * list event :=
  let nameFilter' : fatal + string :=
    if bool_decide (0 < length args) && String.eqb (nameFilter fl) "" then
      inr (default "" (head args))
    else if bool_decide (0 < length args) && negb (String.eqb (nameFilter fl) "") then
      inl name_filter_twice
    else inr (nameFilter fl) in
  match nameFilter' with
  | inl f => (Fatal f, [])
  | inr nameFilter =>
      match mustClient with
      | None => (Fatal no_client, [])
      | Some client =>
          let statusFilters :=
            buildStatusFilters (filterAll fl) (filterComplete fl)
              (filterDeleted fl) (filterInProgress fl) in
          match listStacks client statusFilters nameFilter (descContains fl) (descNotContains fl) with
          | Err err => (Fatal (failed_to_list_stacks err), [ListStacksCall])
          | Ok stacks =>
              let isResourceSearch :=
                negb (String.eqb (resourceType fl) "")
                || negb (String.eqb (resourceName fl) "")
                || bool_decide (0 < length (properties fl)) in
              if isResourceSearch then
                runResourceSearch fl client stacks (namesOnly fl) [ListStacksCall]
              else if namesOnly fl then (Listed stacks, [ListStacksCall])
              else if bool_decide (length stacks = 0) then (Exit1, [ListStacksCall])
              else (Listed stacks, [ListStacksCall])
          end
      end
  end.

End list.
End list_go.
End cmd.

(** ** Package [main] (the stand-alone main.go) *)

Module main_go.

Definition completeStates : list string :=
  [ "CREATE_COMPLETE"; "UPDATE_COMPLETE"; "ROLLBACK_COMPLETE";
    "UPDATE_ROLLBACK_COMPLETE"; "IMPORT_COMPLETE"; "IMPORT_ROLLBACK_COMPLETE" ].

(** The loop of [isActiveStatus] over its states. *)
Fixpoint isActiveLoop (status : string) (states : list string) : bool :=
  match states with
  | [] => false
  | state :: states =>
      if String.eqb status state then true else isActiveLoop status states
  end.

Definition isActiveStatus (status : string) : bool :=
  isActiveLoop status completeStates.

Definition isCompleteStatus (status : string) : bool :=
  strings.HasSuffix status "_COMPLETE".

Definition isDeletedStatus (status : string) : bool :=
  strings.HasPrefix status "DELETE_".

Definition isInProgressStatus (status : string) : bool :=
  strings.HasSuffix status "_IN_PROGRESS".

Section filter.
Context {lib : GoLib}.

(** The loop of [filterStacks]; [None] is the run-time panic of
    [*stack.StackName] on a nil name. *)
Fixpoint filterLoop (noStatusFilter active complete deleted inProgress : bool) (nameFilter : string) (stacks filtered : list StackSummary) : option (list StackSummary) :=
  match stacks with
  | [] => Some filtered
  | stack :: stacks =>
      let next := filterLoop noStatusFilter active complete deleted inProgress nameFilter stacks in
      let skip : option bool :=
        if negb (String.eqb nameFilter "") then
          match StackName stack with
          | Some name =>
              Some (negb (strings.Contains (ToLower name) (ToLower nameFilter)))
          | None => None
          end
        else Some false in
      match skip with
      | None => None
      | Some true => next filtered
      | Some false =>
          let status := StackStatus stack in
          if noStatusFilter then
            if negb (strings.HasPrefix status "DELETE_COMPLETE") then next (filtered ++ [stack])
            else next filtered
          else
            let matched := false in
            let matched := if active && isActiveStatus status then true else matched in
            let matched := if complete && isCompleteStatus status then true else matched in
            let matched := if deleted && isDeletedStatus status then true else matched in
            let matched := if inProgress && isInProgressStatus status then true else matched in
            if matched then next (filtered ++ [stack]) else next filtered
      end
  end.

Definition filterStacks (stacks : list StackSummary) (active complete deleted inProgress : bool) (nameFilter : string) : option (list StackSummary) :=
  let noStatusFilter := negb active && negb complete && negb deleted && negb inProgress in
  filterLoop noStatusFilter active complete deleted inProgress nameFilter stacks [].

End filter.

(** Go's [int] on the 64-bit targets: the result of an addition or a
    subtraction wraps around. *)
Definition int_wrap (z : Z) : Z := ((z + 2 ^ 63) `mod` 2 ^ 64 - 2 ^ 63)%Z.

(** [truncate]; [None] is the run-time panic of a slice expression whose
    bound is out of range. *)
Definition truncate (s : string) (maxLen : Z) : option string :=
  if bool_decide (Z.of_nat (String.length s) ≤ maxLen)%Z then Some s
  else
    let high := int_wrap (maxLen - 3) in
    if bool_decide (0 ≤ high ≤ Z.of_nat (String.length s))%Z
    then Some (strings.slice_to (Z.to_nat high) s +:+ "...")
    else None.

(** [cloudformation.ListStacksPaginator], as [listAllStacks] uses it:
    [NextPage] returns [output.StackSummaries] or the error, and leaves
    the paginator in its next state. *)
Class ListStacksPaginator : Type := {
  Paginator : Type;
  NewListStacksPaginator : Paginator;
  HasMorePages : Paginator → bool;
  NextPage : Paginator → result (list StackSummary) * Paginator;
}.

Section listAllStacks.
Context {pager : ListStacksPaginator}.

(** The loop of [listAllStacks]; [fuel] bounds the number of iterations,
    and [None] is a loop that has not ended within it. *)
Fixpoint listAllStacksLoop (fuel : nat) (paginator : Paginator) (allStacks : list StackSummary) : option (result (list StackSummary)) :=
  match fuel with
  | 0 => None
  | S fuel =>
      if HasMorePages paginator then
        match NextPage paginator with
        | (Err err, _) => Some (Err err)
        | (Ok StackSummaries, paginator) =>
            listAllStacksLoop fuel paginator (allStacks ++ StackSummaries)
        end
      else Some (Ok allStacks)
  end.

Definition listAllStacks (fuel : nat) : option (result (list StackSummary)) :=
  listAllStacksLoop fuel NewListStacksPaginator [].

End listAllStacks.
End main_go.

(** ** Vocabulary of the statements *)

(** The walk of the nested property resolver as the specification words
    it: segments are taken left to right, and at each step the current
    value is a mapping that contains the next segment as a key. *)
Inductive Resolves : value → list string → value → Prop :=
| Resolves_here (v : value) : Resolves v [] v
| Resolves_step (m : gmap string value) (segment : string) (v : value) (segments : list string) (leaf : value) :
    m !! segment = Some v →
    Resolves v segments leaf →
    Resolves (VMap m) (segment :: segments) leaf.

(** [sep] joined between the pieces, the inverse of [strings.Split]. *)
Fixpoint Join (pieces : list string) (sep : Ascii.ascii) : string :=
  match pieces with
  | [] => ""
  | [piece] => piece
  | piece :: pieces => piece +:+ String sep (Join pieces sep)
  end.

(** The byte [c] occurs in [s]. *)
Fixpoint occurs (c : Ascii.ascii) (s : string) : bool :=
  match s with
  | EmptyString => false
  | String c' rest => Ascii.eqb c' c || occurs c rest
  end.

Section vocabulary.
Context {lib : GoLib} {aws : Cfn}.

(** One property filter holds of [properties]: the path resolves to a
    non-nil value whose display form is the expected string. *)
Definition filter_holds (properties : gmap string value) (path expected : string) : Prop :=
  cmd.getNestedProperty properties path ≠ VNil
  ∧ Sprintf_v (cmd.getNestedProperty properties path) = expected.

Definition filter_holdsb (properties : gmap string value) (entry : string * string) : bool :=
  negb (cmd.is_nil (cmd.getNestedProperty properties entry.1))
  && String.eqb (Sprintf_v (cmd.getNestedProperty properties entry.1)) entry.2.

(** The inserts [checkProperties] has made after the entries [filters]. *)
Definition recorded (properties : gmap string value) (filters : list (string * string)) (matchedProps : gmap string value) : gmap string value :=
  foldl (λ acc entry, <[entry.1 := cmd.getNestedProperty properties entry.1]> acc)
    matchedProps filters.

(** What one iteration of the loop of search.go appends for an entry. *)
Definition search_entry (resourceType : string) (propertyFilters : gmap string string) (entry : string * value) : option cmd.resourceMatch :=
  match entry.2 with
  | VMap resourceMap =>
      match resourceMap !! "Type" with
      | Some (VString resType) =>
          if negb (String.eqb resType resourceType) then None
          else if bool_decide (0 < size propertyFilters) then
            match resourceMap !! "Properties" with
            | Some (VMap properties) =>
                if (cmd.checkProperties properties propertyFilters).1 then
                  Some {| cmd.logicalID := entry.1;
                          cmd.resourceType := resType;
                          cmd.matchedProperties := (cmd.checkProperties properties propertyFilters).2 |}
                else None
            | _ => None
            end
          else Some {| cmd.logicalID := entry.1;
                       cmd.resourceType := resType;
                       cmd.matchedProperties := ∅ |}
      | _ => None
      end
  | _ => None
  end.

(** What one iteration of the loop of list.go appends for an entry. *)
Definition list_entry (resType resName : string) (propertyFilters : gmap string string) (entry : string * value) : option cmd.resourceMatch :=
  match entry.2 with
  | VMap resourceMap =>
      match resourceMap !! "Type" with
      | Some (VString currentType) =>
          if negb (String.eqb resType "") && negb (String.eqb currentType resType) then None
          else if negb (String.eqb resName "") && negb (strings.Contains entry.1 resName) then None
          else if bool_decide (0 < size propertyFilters) then
            match resourceMap !! "Properties" with
            | Some (VMap properties) =>
                if (cmd.checkProperties properties propertyFilters).1 then
                  Some {| cmd.logicalID := entry.1;
                          cmd.resourceType := currentType;
                          cmd.matchedProperties := (cmd.checkProperties properties propertyFilters).2 |}
                else None
            | _ => None
            end
          else Some {| cmd.logicalID := entry.1;
                       cmd.resourceType := currentType;
                       cmd.matchedProperties := ∅ |}
      | _ => None
      end
  | _ => None
  end.

(** The Stack Match a stack contributes to the Search Result, in the
    specification's words: none when the stack has no name, when its
    template cannot be fetched or parsed, or when no resource matched;
    else one, with the stack's name and its matches. *)
Definition stack_result (client : Client) (resourceType : string) (propertyFilters : gmap string string) (stack : StackSummary) : list cmd.stackMatch :=
  match StackName stack with
  | None => []
  | Some name =>
      match cmd.search_go.searchStackTemplate client name resourceType propertyFilters with
      | Err _ => []
      | Ok [] => []
      | Ok matches => [{| cmd.stackName := name; cmd.resources := matches |}]
      end
  end.

(** A stack whose template cannot be used: the fetch fails, the body is
    empty, or neither decoder accepts it. *)
Definition unreadable (client : Client) (stack : StackSummary) : Prop :=
  ∃ name, StackName stack = Some name ∧
    ((∃ err, GetTemplate client name = Err err)
     ∨ (∃ body, GetTemplate client name = Ok body ∧ getValue body = "")
     ∨ (∃ body e1 e2, GetTemplate client name = Ok body
          ∧ json_Unmarshal (getValue body) = Err e1
          ∧ yaml_Unmarshal (getValue body) = Err e2)).

(** The status decision of the filter policy in the specification's
    words, with the default view read as the code has it (a prefix test). *)
Definition status_kept (active complete deleted inProgress : bool) (status : string) : bool :=
  if negb active && negb complete && negb deleted && negb inProgress then
    negb (strings.HasPrefix status "DELETE_COMPLETE")
  else
    (active && main_go.isActiveStatus status)
    || (complete && main_go.isCompleteStatus status)
    || (deleted && main_go.isDeletedStatus status)
    || (inProgress && main_go.isInProgressStatus status).

(** The optional name filter: a substring test after lower-casing. *)
Definition name_kept (nameFilter : string) (stack : StackSummary) : bool :=
  String.eqb nameFilter ""
  || match StackName stack with
     | Some name => strings.Contains (ToLower name) (ToLower nameFilter)
     | None => false
     end.

Definition kept (active complete deleted inProgress : bool) (nameFilter : string) (stack : StackSummary) : bool :=
  name_kept nameFilter stack
  && status_kept active complete deleted inProgress (StackStatus stack).

End vocabulary.

(** The values of [types.StackStatus] in the service's SDK. *)
Definition StackStatus_values : list string :=
  [ "CREATE_IN_PROGRESS"; "CREATE_FAILED"; "CREATE_COMPLETE";
    "ROLLBACK_IN_PROGRESS"; "ROLLBACK_FAILED"; "ROLLBACK_COMPLETE";
    "DELETE_IN_PROGRESS"; "DELETE_FAILED"; "DELETE_COMPLETE";
    "UPDATE_IN_PROGRESS"; "UPDATE_COMPLETE_CLEANUP_IN_PROGRESS";
    "UPDATE_COMPLETE"; "UPDATE_FAILED"; "UPDATE_ROLLBACK_IN_PROGRESS";
    "UPDATE_ROLLBACK_FAILED"; "UPDATE_ROLLBACK_COMPLETE_CLEANUP_IN_PROGRESS";
    "UPDATE_ROLLBACK_COMPLETE"; "REVIEW_IN_PROGRESS"; "IMPORT_IN_PROGRESS";
    "IMPORT_COMPLETE"; "IMPORT_ROLLBACK_IN_PROGRESS"; "IMPORT_ROLLBACK_FAILED";
    "IMPORT_ROLLBACK_COMPLETE" ].

(** ** A small world for the examples *)

Module example.

(** The double quote character. *)
Definition dq : string := String (Ascii.ascii_of_nat 34) "".
Definition q (s : string) : string := dq +:+ s +:+ dq.

(** A JSON template with one versioned bucket and a malformed entry. *)
Definition bucketJSON : string :=
  "{" +:+ q "Resources" +:+ ":{"
  +:+ q "Logs" +:+ ":{" +:+ q "Type" +:+ ":" +:+ q "AWS::S3::Bucket" +:+ ","
  +:+ q "Properties" +:+ ":{" +:+ q "Versioning" +:+ ":{" +:+ q "Status" +:+ ":" +:+ q "Enabled" +:+ "},"
  +:+ q "Tags" +:+ ":null}},"
  +:+ q "Note" +:+ ":" +:+ q "scalar" +:+ "}}".

Definition bucketProperties : gmap string value :=
  {[ "Versioning" := VMap {[ "Status" := VString "Enabled" ]};
     "Tags" := VNil ]}.

Definition logsResource : gmap string value :=
  {[ "Type" := VString "AWS::S3::Bucket";
     "Properties" := VMap bucketProperties ]}.

Definition bucketResources : gmap string value :=
  {[ "Logs" := VMap logsResource;
     "Note" := VString "scalar" ]}.

Definition bucketTemplate : gmap string value :=
  {[ "Resources" := VMap bucketResources ]}.

(** A YAML template with one provisioned product. *)
Definition roleYAML : string :=
  "Resources: {Role: {Type: AWS::ServiceCatalog::CloudFormationProvisionedProduct, Properties: {ProductName: IAMRole, ProvisioningArtifactName: 2.0.0}}}".

Definition roleProperties : gmap string value :=
  {[ "ProductName" := VString "IAMRole";
     "ProvisioningArtifactName" := VString "2.0.0" ]}.

Definition roleTemplate : gmap string value :=
  {[ "Resources" := VMap
       {[ "Role" := VMap
            {[ "Type" := VString "AWS::ServiceCatalog::CloudFormationProvisionedProduct";
               "Properties" := VMap roleProperties ]} ]} ]}.

(** [%v] where the verb alone fixes the output (strings, booleans, nil,
    ints); no example formats another shape.  The decoders know the two
    texts above. *)
Definition lib : GoLib := {|
  Sprintf_v v :=
    match v with
    | VString s => s
    | VBool true => "true"
    | VBool false => "false"
    | VNil => "<nil>"
    | VInt n => pretty n
    | _ => "?"
    end;
  ToLower := strings.ToLowerASCII;
  json_Unmarshal body :=
    if String.eqb body bucketJSON then Ok bucketTemplate
    else Err "invalid character";
  yaml_Unmarshal body :=
    if String.eqb body bucketJSON then Ok bucketTemplate
    else if String.eqb body roleYAML then Ok roleTemplate
    else Err "yaml: unmarshal errors";
|}.

Definition storage : StackSummary :=
  {| StackName := Some "storage"; StackStatus := "CREATE_COMPLETE" |}.
Definition broken : StackSummary :=
  {| StackName := Some "broken"; StackStatus := "UPDATE_IN_PROGRESS" |}.
Definition archive : StackSummary :=
  {| StackName := Some "Archive-Storage"; StackStatus := "UPDATE_COMPLETE" |}.
Definition identity : StackSummary :=
  {| StackName := Some "identity"; StackStatus := "DELETE_COMPLETE" |}.

(** Three stacks are listed; the template of the second cannot be
    fetched. *)
Definition aws : Cfn := {|
  Client := unit;
  mustClient := Some ();
  GetTemplate _ name :=
    if String.eqb name "storage" then Ok (Some bucketJSON)
    else if String.eqb name "Archive-Storage" then Ok (Some bucketJSON)
    else if String.eqb name "identity" then Ok (Some roleYAML)
    else Err "AccessDenied";
  getValue := default "";
  StatusFilters := unit;
  buildStatusFilters _ _ _ _ := ();
  listStacks _ _ _ _ _ := Ok [storage; broken; archive];
|}.

Definition searchFlags (props : list string) : cmd.search_go.flags :=
  {| cmd.search_go.searchProperties := props;
     cmd.search_go.searchFilterAll := false;
     cmd.search_go.searchFilterComplete := false;
     cmd.search_go.searchFilterDeleted := false;
     cmd.search_go.searchFilterInProgress := false |}.

Definition listFlags (type : string) (props : list string) : cmd.list_go.flags :=
  {| cmd.list_go.filterAll := false;
     cmd.list_go.filterComplete := false;
     cmd.list_go.filterDeleted := false;
     cmd.list_go.filterInProgress := false;
     cmd.list_go.nameFilter := "";
     cmd.list_go.descContains := "";
     cmd.list_go.descNotContains := "";
     cmd.list_go.namesOnly := false;
     cmd.list_go.resourceType := type;
     cmd.list_go.resourceName := "";
     cmd.list_go.properties := props |}.

End example.

(** ** Further vocabulary *)

(** The pages a paginator yields from a state on: each call of [NextPage]
    made while [HasMorePages] holds gives the next page, until no page is
    left ([None]) or a call fails ([Some err]). *)
Inductive Pages {pager : main_go.ListStacksPaginator} : main_go.Paginator → list (list StackSummary) → option error → Prop :=
| Pages_done (paginator : main_go.Paginator) :
    main_go.HasMorePages paginator = false →
    Pages paginator [] None
| Pages_fail (paginator paginator' : main_go.Paginator) (err : error) :
    main_go.HasMorePages paginator = true →
    main_go.NextPage paginator = (Err err, paginator') →
    Pages paginator [] (Some err)
| Pages_more (paginator paginator' : main_go.Paginator) (page : list StackSummary) (pages : list (list StackSummary)) (final : option error) :
    main_go.HasMorePages paginator = true →
    main_go.NextPage paginator = (Ok page, paginator') →
    Pages paginator' pages final →
    Pages paginator (page :: pages) final.

(** The flags of the list command that ask what [search <type>] asks
    with the flags [fl]. *)
Definition list_flags_of (fl : cmd.search_go.flags) (type : string) (namesOnly : bool) : cmd.list_go.flags :=
  {| cmd.list_go.filterAll := cmd.search_go.searchFilterAll fl;
     cmd.list_go.filterComplete := cmd.search_go.searchFilterComplete fl;
     cmd.list_go.filterDeleted := cmd.search_go.searchFilterDeleted fl;
     cmd.list_go.filterInProgress := cmd.search_go.searchFilterInProgress fl;
     cmd.list_go.nameFilter := "";
     cmd.list_go.descContains := "";
     cmd.list_go.descNotContains := "";
     cmd.list_go.namesOnly := namesOnly;
     cmd.list_go.resourceType := type;
     cmd.list_go.resourceName := "";
     cmd.list_go.properties := cmd.search_go.searchProperties fl |}.

(** The flags [fl] with [--name] set. *)
Definition with_name (fl : cmd.list_go.flags) (name : string) : cmd.list_go.flags :=
  {| cmd.list_go.filterAll := cmd.list_go.filterAll fl;
     cmd.list_go.filterComplete := cmd.list_go.filterComplete fl;
     cmd.list_go.filterDeleted := cmd.list_go.filterDeleted fl;
     cmd.list_go.filterInProgress := cmd.list_go.filterInProgress fl;
     cmd.list_go.nameFilter := name;
     cmd.list_go.descContains := cmd.list_go.descContains fl;
     cmd.list_go.descNotContains := cmd.list_go.descNotContains fl;
     cmd.list_go.namesOnly := cmd.list_go.namesOnly fl;
     cmd.list_go.resourceType := cmd.list_go.resourceType fl;
     cmd.list_go.resourceName := cmd.list_go.resourceName fl;
     cmd.list_go.properties := cmd.list_go.properties fl |}.

(** The test the list command's type and name filters make on a match. *)
Definition passes_type_and_name (resType resName : string) (rm : cmd.resourceMatch) : bool :=
  (String.eqb resType "" || String.eqb (cmd.resourceType rm) resType)
  && (String.eqb resName "" || strings.Contains (cmd.logicalID rm) resName).

(** A paginator that replays a script of responses. *)
Definition scripted (script : list (result (list StackSummary))) : main_go.ListStacksPaginator := {|
  main_go.Paginator := list (result (list StackSummary));
  main_go.NewListStacksPaginator := script;
  main_go.HasMorePages responses := bool_decide (responses ≠ []);
  main_go.NextPage responses :=
    match responses with
    | [] => (Err "no more pages available", [])
    | response :: responses => (response, responses)
    end;
|}.

(** ** Facts about package [strings] *)

Lemma length_append (a b : string) :
  String.length (a +:+ b) = String.length a + String.length b.
Proof. induction a as [|c a IH]; simpl; [done | by rewrite IH]. Qed.

Lemma append_cons (c : Ascii.ascii) (a b : string) :
  String c a +:+ b = String c (a +:+ b).
Proof. reflexivity. Qed.

Lemma substring_zero_length (s : string) (n : nat) : String.substring n 0 s = "".
Proof.
  revert n. induction s as [|c s IH]; intros [|n]; simpl; auto.
Qed.

Lemma substring_all (s : string) : String.substring 0 (String.length s) s = s.
Proof. induction s as [|c s IH]; simpl; [done | by rewrite IH]. Qed.

Lemma substring_append_l (p r : string) :
  String.substring 0 (String.length p) (p +:+ r) = p.
Proof.
  induction p as [|c p IH]; simpl.
  - apply substring_zero_length.
  - by rewrite IH.
Qed.

Lemma substring_append_r (r t : string) :
  String.substring (String.length r) (String.length t) (r +:+ t) = t.
Proof. induction r as [|c r IH]; simpl; [apply substring_all | done]. Qed.

Lemma substring_cut (s : string) (n : nat) :
  n ≤ String.length s →
  s = String.substring 0 n s +:+ String.substring n (String.length s - n) s.
Proof.
  revert n. induction s as [|c s IH]; intros [|n] Hn; simpl in *.
  - done.
  - lia.
  - by rewrite substring_all.
  - rewrite append_cons. f_equal. apply IH. lia.
Qed.

Lemma HasPrefix_spec (s prefix : string) :
  strings.HasPrefix s prefix = true ↔ ∃ rest, s = prefix +:+ rest.
Proof.
  unfold strings.HasPrefix, strings.slice_to.
  rewrite andb_true_iff, bool_decide_eq_true, String.eqb_eq. split.
  - intros [Hlen Heq]. eexists. rewrite <- Heq at 1. by apply substring_cut.
  - intros [rest ->]. rewrite length_append. split; [lia|].
    apply substring_append_l.
Qed.

Lemma HasSuffix_spec (s suffix : string) :
  strings.HasSuffix s suffix = true ↔ ∃ front, s = front +:+ suffix.
Proof.
  unfold strings.HasSuffix, strings.slice_from.
  rewrite andb_true_iff, bool_decide_eq_true, String.eqb_eq. split.
  - intros [Hlen Heq].
    exists (String.substring 0 (String.length s - String.length suffix) s).
    etrans; [apply (substring_cut s (String.length s - String.length suffix)); lia|].
    by rewrite Heq.
  - intros [front ->]. rewrite length_append. split; [lia|].
    replace (String.length front + String.length suffix - String.length suffix)
      with (String.length front) by lia.
    replace (String.length front + String.length suffix - String.length front)
      with (String.length suffix) by lia.
    apply substring_append_r.
Qed.

Lemma Contains_spec (s substr : string) :
  strings.Contains s substr = true ↔ ∃ a b, s = a +:+ substr +:+ b.
Proof.
  induction s as [|c s IH]; simpl; rewrite orb_true_iff, HasPrefix_spec.
  - split.
    + intros [[b Hb]|?]; [|done]. by exists "", b.
    + intros (a & b & Hab). left. destruct a; [by exists b|done].
  - rewrite IH. split.
    + intros [[b Hb]|(a & b & ->)]; [by exists "", b|].
      by exists (String c a), b.
    + intros (a & b & Hab). destruct a as [|c' a]; simpl in Hab.
      * left. by exists b.
      * right. injection Hab as -> ->. by exists a, b.
Qed.

Lemma Split_nonempty (s : string) (sep : Ascii.ascii) : strings.Split s sep ≠ [].
Proof.
  destruct s as [|c s]; simpl; [done|].
  destruct (Ascii.eqb c sep); [done|]. by destruct (strings.Split s sep).
Qed.

(** The pieces of [Split] hold no separator and join back to [s]. *)
Lemma Split_Join (s : string) (sep : Ascii.ascii) :
  Join (strings.Split s sep) sep = s
  ∧ Forall (λ piece, occurs sep piece = false) (strings.Split s sep).
Proof.
  induction s as [|c s [IHj IHf]]; simpl.
  - split; [done|]. by constructor.
  - destruct (Ascii.eqb c sep) eqn:Hc.
    + apply Ascii.eqb_eq in Hc as ->. split.
      * pose proof (Split_nonempty s sep).
        destruct (strings.Split s sep) as [|p ps]; [done|]. simpl in *.
        by rewrite IHj.
      * by constructor.
    + pose proof (Split_nonempty s sep).
      destruct (strings.Split s sep) as [|p ps]; [done|].
      apply Forall_cons in IHf as [Hp Hps]. split.
      * destruct ps; simpl in *; by rewrite ?append_cons, IHj.
      * constructor; [|done]. simpl. by rewrite Hc.
Qed.

Lemma Cut_None (s : string) (sep : Ascii.ascii) :
  strings.Cut s sep = None ↔ occurs sep s = false.
Proof.
  induction s as [|c s IH]; simpl; [done|].
  destruct (Ascii.eqb c sep); simpl; [done|].
  rewrite <- IH. destruct (strings.Cut s sep) as [[??]|]; done.
Qed.

Lemma Cut_Some (s : string) (sep : Ascii.ascii) (before after : string) :
  strings.Cut s sep = Some (before, after) →
  s = before +:+ String sep after ∧ occurs sep before = false.
Proof.
  revert before. induction s as [|c s IH]; intros before; simpl; [done|].
  destruct (Ascii.eqb c sep) eqn:Hc.
  - apply Ascii.eqb_eq in Hc as ->. by intros [= <- <-].
  - destruct (strings.Cut s sep) as [[b a]|]; [|done]. intros [= <- <-].
    destruct (IH b eq_refl) as [-> Hb]. simpl. by rewrite Hc.
Qed.

Lemma occurs_append (c : Ascii.ascii) (a b : string) :
  occurs c (a +:+ b) = occurs c a || occurs c b.
Proof.
  induction a as [|x a IH]; simpl; [done|]. rewrite IH. by rewrite orb_assoc.
Qed.

(** A token has a separator exactly when [SplitN] yields two parts. *)
Lemma SplitN2_parts (s : string) (sep : Ascii.ascii) :
  (occurs sep s = false ∧ strings.SplitN2 s sep = [s])
  ∨ (∃ before after, s = before +:+ String sep after
       ∧ occurs sep before = false
       ∧ strings.SplitN2 s sep = [before; after]).
Proof.
  unfold strings.SplitN2. destruct (strings.Cut s sep) as [[b a]|] eqn:Hcut.
  - right. exists b, a. by destruct (Cut_Some _ _ _ _ Hcut).
  - left. by apply Cut_None in Hcut.
Qed.

(** ** Status predicates (main.go) *)

Lemma isActiveLoop_elem_of (status : string) (states : list string) :
  main_go.isActiveLoop status states = true ↔ status ∈ states.
Proof.
  induction states as [|state states IH]; simpl.
  - split; [done | by intros ?%elem_of_nil].
  - rewrite elem_of_cons. destruct (String.eqb_spec status state) as [->|Hne].
    + split; [by left | done].
    + rewrite IH. split; [by right | by intros [?|?]].
Qed.

(** C7: [isCompleteStatus] holds exactly of the statuses that end with
    [_COMPLETE], [isDeletedStatus] of those that start with [DELETE_],
    [isInProgressStatus] of those that end with [_IN_PROGRESS], and
    [isActiveStatus] of the six enumerated stable states; the categories
    overlap: [DELETE_COMPLETE] is both complete and deleted. *)
Theorem status_predicates (status : string) :
  (main_go.isCompleteStatus status = true ↔ ∃ front, status = front +:+ "_COMPLETE")
  ∧ (main_go.isDeletedStatus status = true ↔ ∃ rest, status = "DELETE_" +:+ rest)
  ∧ (main_go.isInProgressStatus status = true ↔ ∃ front, status = front +:+ "_IN_PROGRESS")
  ∧ (main_go.isActiveStatus status = true ↔
       status ∈ [ "CREATE_COMPLETE"; "UPDATE_COMPLETE"; "ROLLBACK_COMPLETE";
                  "UPDATE_ROLLBACK_COMPLETE"; "IMPORT_COMPLETE";
                  "IMPORT_ROLLBACK_COMPLETE" ])
  ∧ main_go.isCompleteStatus "DELETE_COMPLETE" = true
  ∧ main_go.isDeletedStatus "DELETE_COMPLETE" = true.
Proof.
  split_and!.
  - apply HasSuffix_spec.
  - apply HasPrefix_spec.
  - apply HasSuffix_spec.
  - apply isActiveLoop_elem_of.
  - reflexivity.
  - reflexivity.
Qed.

(** ** The nested property resolver *)

Lemma getNestedWalk_resolves (root : value) (parts : list string) (leaf : value) :
  Resolves root parts leaf → cmd.getNestedWalk root parts = leaf.
Proof.
  induction 1 as [v|m segment v segments leaf Hlookup _ IH]; simpl.
  - done.
  - by rewrite Hlookup.
Qed.

Lemma getNestedWalk_unresolved (root : value) (parts : list string) :
  (¬ ∃ leaf, Resolves root parts leaf) → cmd.getNestedWalk root parts = VNil.
Proof.
  revert root. induction parts as [|part parts IH]; intros root Hnone; simpl.
  - destruct Hnone. exists root. constructor.
  - destruct root as [| | | | | |m|]; try done.
    destruct (m !! part) as [v|] eqn:Hlookup; [|done].
    apply IH. intros [leaf Hleaf]. apply Hnone. exists leaf.
    by econstructor.
Qed.

Lemma Resolves_functional (root : value) (parts : list string) (leaf leaf' : value) :
  Resolves root parts leaf → Resolves root parts leaf' → leaf = leaf'.
Proof.
  intros H1%getNestedWalk_resolves H2%getNestedWalk_resolves. congruence.
Qed.

(** C4: the resolver walks the segments of the path left to right.  When
    at every step the current value is a mapping that holds the next
    segment, it returns the leaf reached; in every other case (a missing
    key, a scalar or a sequence on the way) it returns the absence signal
    [nil], never the value of a shorter path.  A path always has at least
    one segment.  Being a function of the mapping and the path, it is
    deterministic.  The two examples of the specification are included. *)
Theorem getNestedProperty_resolves (properties : gmap string value) (path : string) :
  strings.Split path "."%char ≠ []
  ∧ (∀ leaf,
       Resolves (VMap properties) (strings.Split path "."%char) leaf →
       cmd.getNestedProperty properties path = leaf)
  ∧ ((¬ ∃ leaf, Resolves (VMap properties) (strings.Split path "."%char) leaf) →
       cmd.getNestedProperty properties path = VNil)
  ∧ (∀ root parts leaf, Resolves root parts leaf → cmd.getNestedWalk root parts = leaf)
  ∧ (∀ root parts, (¬ ∃ leaf, Resolves root parts leaf) → cmd.getNestedWalk root parts = VNil)
  ∧ cmd.getNestedProperty
      {[ "Versioning" := VMap {[ "Status" := VString "Enabled" ]} ]}
      "Versioning.Status" = VString "Enabled"
  ∧ cmd.getNestedProperty {[ "A" := VFloat 4607182418800017408 ]} "A.B" = VNil.
Proof.
  split_and!.
  - apply Split_nonempty.
  - apply getNestedWalk_resolves.
  - apply getNestedWalk_unresolved.
  - apply getNestedWalk_resolves.
  - apply getNestedWalk_unresolved.
  - vm_compute. reflexivity.
  - vm_compute. reflexivity.
Qed.

(** The walk of the first example, step by step. *)
Lemma getNestedProperty_resolves_example :
  cmd.getNestedProperty example.bucketProperties "Versioning.Status" = VString "Enabled".
Proof.
  destruct (getNestedProperty_resolves example.bucketProperties "Versioning.Status")
    as (_ & Hleaf & _).
  apply Hleaf.
  change (strings.Split "Versioning.Status" "."%char) with ["Versioning"; "Status"].
  eapply Resolves_step; [reflexivity|].
  eapply Resolves_step; [reflexivity|].
  apply Resolves_here.
Defined.

(** ** Property filters *)

Section checkProperties.
Context {lib : GoLib}.

Lemma is_nil_false (v : value) : cmd.is_nil v = false ↔ v ≠ VNil.
Proof. destruct v; simpl; split; congruence. Qed.

Lemma filter_holdsb_spec (properties : gmap string value) (path expected : string) :
  filter_holdsb properties (path, expected) = true ↔ filter_holds properties path expected.
Proof.
  unfold filter_holdsb, filter_holds. simpl.
  rewrite andb_true_iff, negb_true_iff, is_nil_false, String.eqb_eq. done.
Qed.

Lemma checkPropertiesLoop_spec (properties : gmap string value) (filters : list (string * string)) (matchedProps : gmap string value) :
  cmd.checkPropertiesLoop properties filters matchedProps =
    if forallb (filter_holdsb properties) filters
    then (true, recorded properties filters matchedProps)
    else (false, ∅).
Proof.
  revert matchedProps.
  induction filters as [|[key expectedValue] filters IH]; intros matchedProps; simpl.
  - done.
  - unfold filter_holdsb at 1. simpl.
    destruct (cmd.is_nil (cmd.getNestedProperty properties key)); simpl; [done|].
    destruct (String.eqb _ expectedValue); simpl; [|done].
    apply IH.
Qed.

Lemma recorded_lookup (properties : gmap string value) (filters : list (string * string)) (matchedProps : gmap string value) (path : string) :
  recorded properties filters matchedProps !! path =
    if decide (path ∈ filters.*1)
    then Some (cmd.getNestedProperty properties path)
    else matchedProps !! path.
Proof.
  revert matchedProps.
  induction filters as [|[key expectedValue] filters IH]; intros matchedProps.
  - rewrite decide_False by apply not_elem_of_nil. done.
  - change (recorded properties ((key, expectedValue) :: filters) matchedProps)
      with (recorded properties filters
              (<[key := cmd.getNestedProperty properties key]> matchedProps)).
    rewrite IH, fmap_cons. simpl.
    destruct (decide (path ∈ filters.*1)) as [Hin|Hin].
    + rewrite decide_True; [done | by right].
    + destruct (decide (path = key)) as [->|Hne].
      * rewrite lookup_insert_eq, decide_True; [done | by left].
      * rewrite lookup_insert_ne by done.
        rewrite decide_False; [done|]. by intros [?|?]%elem_of_cons.
Qed.

Lemma forallb_filter_holdsb (properties : gmap string value) (filters : gmap string string) :
  forallb (filter_holdsb properties) (map_to_list filters) = true
  ↔ ∀ path expected, filters !! path = Some expected → filter_holds properties path expected.
Proof.
  rewrite forallb_forall. split.
  - intros Hall path expected Hlookup. apply filter_holdsb_spec, Hall.
    apply list_elem_of_In. by apply elem_of_map_to_list.
  - intros Hall [path expected] Hin%list_elem_of_In%elem_of_map_to_list.
    by apply filter_holdsb_spec, Hall.
Qed.

Lemma elem_of_map_to_list_keys (filters : gmap string string) (path : string) :
  path ∈ (map_to_list filters).*1 ↔ is_Some (filters !! path).
Proof.
  rewrite list_elem_of_fmap. split.
  - intros ([k e] & -> & Hin%elem_of_map_to_list). by exists e.
  - intros [e He]. exists (path, e). split; [done|]. by apply elem_of_map_to_list.
Qed.

(** [checkProperties] succeeds exactly when every filter holds, and then
    returns one entry per filter, the resolved value under its path. *)
Lemma checkProperties_true (properties : gmap string value) (filters : gmap string string) (matchedProps : gmap string value) :
  cmd.checkProperties properties filters = (true, matchedProps)
  ↔ (∀ path expected, filters !! path = Some expected → filter_holds properties path expected)
    ∧ ∀ path, matchedProps !! path =
        (λ _, cmd.getNestedProperty properties path) <$> (filters !! path).
Proof.
  unfold cmd.checkProperties. rewrite checkPropertiesLoop_spec.
  rewrite <- forallb_filter_holdsb.
  assert (∀ path, recorded properties (map_to_list filters) ∅ !! path =
            (λ _, cmd.getNestedProperty properties path) <$> (filters !! path)) as Hrec.
  { intros path. rewrite recorded_lookup. case_decide as Hin.
    - apply elem_of_map_to_list_keys in Hin as [e ->]. done.
    - rewrite lookup_empty. destruct (filters !! path) eqn:Hl; [|done].
      destruct Hin. apply elem_of_map_to_list_keys. by eexists. }
  destruct (forallb _ _); split.
  - intros [= <-]. done.
  - intros [_ Hmp]. f_equal. apply map_eq. intros path. by rewrite Hrec, Hmp.
  - done.
  - by intros [? _].
Qed.

Lemma checkProperties_cases (properties : gmap string value) (filters : gmap string string) :
  (∃ matchedProps, cmd.checkProperties properties filters = (true, matchedProps))
  ∨ cmd.checkProperties properties filters = (false, ∅).
Proof.
  unfold cmd.checkProperties. rewrite checkPropertiesLoop_spec.
  destruct (forallb _ _); eauto.
Qed.

(** The order in which the filters are visited does not matter. *)
Lemma checkPropertiesLoop_Permutation (properties : gmap string value) (filters filters' : list (string * string)) (matchedProps : gmap string value) :
  filters ≡ₚ filters' →
  cmd.checkPropertiesLoop properties filters matchedProps
  = cmd.checkPropertiesLoop properties filters' matchedProps.
Proof.
  intros Hperm. rewrite !checkPropertiesLoop_spec.
  assert (forallb (filter_holdsb properties) filters
          = forallb (filter_holdsb properties) filters') as ->.
  { apply eq_true_iff_eq. rewrite !forallb_forall.
    split; intros Hall entry Hin%list_elem_of_In; apply Hall, list_elem_of_In.
    - by rewrite Hperm.
    - by rewrite <- Hperm. }
  destruct (forallb _ filters'); [|done]. f_equal. apply map_eq. intros path.
  rewrite !recorded_lookup.
  destruct (decide (path ∈ filters.*1)) as [Hin|Hin];
    rewrite Hperm in Hin; [by rewrite decide_True | by rewrite decide_False].
Qed.

(** The matcher sees [properties] only through the resolver. *)
Lemma checkProperties_ext (properties properties' : gmap string value) (filters : gmap string string) :
  (∀ path, is_Some (filters !! path) →
     cmd.getNestedProperty properties path = cmd.getNestedProperty properties' path) →
  cmd.checkProperties properties filters = cmd.checkProperties properties' filters.
Proof.
  intros Hsame. unfold cmd.checkProperties.
  assert (Forall (λ entry, is_Some (filters !! entry.1)) (map_to_list filters)) as Hkeys.
  { apply Forall_forall. intros [k e] Hin%elem_of_map_to_list. by exists e. }
  generalize (∅ : gmap string value).
  induction Hkeys as [|[key expectedValue] rest Hkey _ IH]; intros acc; simpl.
  - done.
  - rewrite <- (Hsame key Hkey).
    destruct (cmd.is_nil _); [done|]. destruct (negb _); [done|]. apply IH.
Qed.

End checkProperties.

(** C10: the resolver answers [nil] both when the leaf of the path is a
    null scalar and when the path does not exist, so a property filter on
    that path fails whatever string it expects; and since the matcher sees
    the properties only through the resolver, it gives the same answer on
    two mappings that the resolver cannot tell apart. *)
Theorem null_property_is_absent {lib : GoLib} (properties : gmap string value) (path : string) :
  (Resolves (VMap properties) (strings.Split path "."%char) VNil →
     cmd.getNestedProperty properties path = VNil)
  ∧ ((¬ ∃ leaf, Resolves (VMap properties) (strings.Split path "."%char) leaf) →
     cmd.getNestedProperty properties path = VNil)
  ∧ (cmd.getNestedProperty properties path = VNil →
     ∀ filters expected, filters !! path = Some expected →
       cmd.checkProperties properties filters = (false, ∅))
  ∧ (∀ properties' filters,
       (∀ key, is_Some (filters !! key) →
          cmd.getNestedProperty properties key = cmd.getNestedProperty properties' key) →
       cmd.checkProperties properties filters = cmd.checkProperties properties' filters).
Proof.
  split_and!.
  - apply getNestedWalk_resolves.
  - apply getNestedWalk_unresolved.
  - intros Hnil filters expected Hlookup.
    destruct (checkProperties_cases properties filters) as [[mp Htrue]|Hfalse]; [|done].
    apply checkProperties_true in Htrue as [Hall _].
    by destruct (Hall path expected Hlookup) as [Hne _].
  - intros properties' filters. apply checkProperties_ext.
Qed.

(** A bucket whose [Tags] are null does not match [Tags=<nil>], exactly
    as a bucket without [Tags]. *)
Lemma null_property_is_absent_example :
  cmd.checkProperties (lib := example.lib) example.bucketProperties {[ "Tags" := "<nil>" ]} = (false, ∅)
  ∧ cmd.checkProperties (lib := example.lib) example.bucketProperties {[ "Tags" := "<nil>" ]}
    = cmd.checkProperties (lib := example.lib) (delete "Tags" example.bucketProperties) {[ "Tags" := "<nil>" ]}.
Proof.
  destruct (null_property_is_absent (lib := example.lib) example.bucketProperties "Tags")
    as (Hnull & _ & Hfails & Hsame).
  split.
  - apply (Hfails (Hnull ltac:(eapply Resolves_step; [reflexivity | apply Resolves_here]))
             {[ "Tags" := "<nil>" ]} "<nil>").
    reflexivity.
  - apply Hsame. intros key [expected Hkey].
    apply lookup_singleton_Some in Hkey as [<- _]. reflexivity.
Defined.

(** ** The resource matchers *)

Section matchers.
Context {lib : GoLib}.

Lemma search_searchResources_omap (resourceType : string) (propertyFilters : gmap string string) (resources : list (string * value)) (matches : list cmd.resourceMatch) :
  cmd.search_go.searchResources resourceType propertyFilters resources matches
  = matches ++ omap (search_entry resourceType propertyFilters) resources.
Proof.
  revert matches.
  induction resources as [|[logicalID resourceData] resources IH]; intros matches.
  - simpl. by rewrite app_nil_r.
  - simpl. unfold search_entry at 1. simpl.
    destruct resourceData as [| | | | | |resourceMap|]; try apply IH.
    destruct (resourceMap !! "Type") as [[| | | |resType| | |]|]; try apply IH.
    destruct (negb (String.eqb resType resourceType)); [apply IH|].
    case_bool_decide.
    + destruct (resourceMap !! "Properties") as [[| | | | | |properties|]|]; try apply IH.
      destruct (cmd.checkProperties properties propertyFilters) as [[] matchedProps];
        simpl; [|apply IH].
      rewrite IH. by rewrite <- app_assoc.
    + rewrite IH. by rewrite <- app_assoc.
Qed.

Lemma list_searchResources_omap (resType resName : string) (propertyFilters : gmap string string) (resources : list (string * value)) (matches : list cmd.resourceMatch) :
  cmd.list_go.searchResources resType resName propertyFilters resources matches
  = matches ++ omap (list_entry resType resName propertyFilters) resources.
Proof.
  revert matches.
  induction resources as [|[logicalID resourceData] resources IH]; intros matches.
  - simpl. by rewrite app_nil_r.
  - simpl. unfold list_entry at 1. simpl.
    destruct resourceData as [| | | | | |resourceMap|]; try apply IH.
    destruct (resourceMap !! "Type") as [[| | | |currentType| | |]|]; try apply IH.
    destruct (negb (String.eqb resType "") && negb (String.eqb currentType resType));
      [apply IH|].
    destruct (negb (String.eqb resName "") && negb (strings.Contains logicalID resName));
      [apply IH|].
    case_bool_decide.
    + destruct (resourceMap !! "Properties") as [[| | | | | |properties|]|]; try apply IH.
      destruct (cmd.checkProperties properties propertyFilters) as [[] matchedProps];
        simpl; [|apply IH].
      rewrite IH. by rewrite <- app_assoc.
    + rewrite IH. by rewrite <- app_assoc.
Qed.

(** With a type filter and no name filter, an iteration of list.go
    decides as an iteration of search.go. *)
Lemma list_entry_search_entry (resourceType : string) (propertyFilters : gmap string string) (entry : string * value) :
  resourceType ≠ "" →
  list_entry resourceType "" propertyFilters entry
  = search_entry resourceType propertyFilters entry.
Proof.
  intros Hne%String.eqb_neq. unfold list_entry, search_entry.
  rewrite Hne. simpl.
  by destruct (entry.2) as [| | | | | |resourceMap|].
Qed.

Lemma search_entry_logicalID (resourceType : string) (propertyFilters : gmap string string) (entry : string * value) (rm : cmd.resourceMatch) :
  search_entry resourceType propertyFilters entry = Some rm → cmd.logicalID rm = entry.1.
Proof.
  unfold search_entry. intros Hrm.
  repeat (case_match; try done); by injection Hrm as <-.
Qed.

Lemma list_entry_logicalID (resType resName : string) (propertyFilters : gmap string string) (entry : string * value) (rm : cmd.resourceMatch) :
  list_entry resType resName propertyFilters entry = Some rm → cmd.logicalID rm = entry.1.
Proof.
  unfold list_entry. intros Hrm.
  repeat (case_match; try done); by injection Hrm as <-.
Qed.

(** A match of the search command comes from an entry of [Resources]. *)
Lemma elem_of_search_searchTemplate (template : gmap string value) (resourceType : string) (propertyFilters : gmap string string) (rm : cmd.resourceMatch) :
  rm ∈ cmd.search_go.searchTemplate template resourceType propertyFilters
  ↔ ∃ resources resourceData,
      template !! "Resources" = Some (VMap resources)
      ∧ resources !! cmd.logicalID rm = Some resourceData
      ∧ search_entry resourceType propertyFilters (cmd.logicalID rm, resourceData) = Some rm.
Proof.
  unfold cmd.search_go.searchTemplate. split.
  - destruct (template !! "Resources") as [[| | | | | |resources|]|];
      try by intros ?%elem_of_nil.
    rewrite search_searchResources_omap. simpl.
    intros ([id data] & Hin%elem_of_map_to_list & Hentry)%list_elem_of_omap.
    pose proof (search_entry_logicalID _ _ _ _ Hentry) as Hid. simpl in Hid.
    subst id. by exists resources, data.
  - intros (resources & data & -> & Hlookup & Hentry).
    rewrite search_searchResources_omap. simpl.
    apply list_elem_of_omap. exists (cmd.logicalID rm, data).
    split; [by apply elem_of_map_to_list | done].
Qed.

Lemma elem_of_list_searchTemplate (template : gmap string value) (resType resName : string) (propertyFilters : gmap string string) (rm : cmd.resourceMatch) :
  rm ∈ cmd.list_go.searchTemplate template resType resName propertyFilters
  ↔ ∃ resources resourceData,
      template !! "Resources" = Some (VMap resources)
      ∧ resources !! cmd.logicalID rm = Some resourceData
      ∧ list_entry resType resName propertyFilters (cmd.logicalID rm, resourceData) = Some rm.
Proof.
  unfold cmd.list_go.searchTemplate. split.
  - destruct (template !! "Resources") as [[| | | | | |resources|]|];
      try by intros ?%elem_of_nil.
    rewrite list_searchResources_omap. simpl.
    intros ([id data] & Hin%elem_of_map_to_list & Hentry)%list_elem_of_omap.
    pose proof (list_entry_logicalID _ _ _ _ _ Hentry) as Hid. simpl in Hid.
    subst id. by exists resources, data.
  - intros (resources & data & -> & Hlookup & Hentry).
    rewrite list_searchResources_omap. simpl.
    apply list_elem_of_omap. exists (cmd.logicalID rm, data).
    split; [by apply elem_of_map_to_list | done].
Qed.

End matchers.

Section matcher_properties.
Context {lib : GoLib}.

(** The matches of one well-typed entry are what its iteration appends. *)
Lemma search_entry_at (template resources : gmap string value) (resourceData : value) (id resType : string) (filters : gmap string string) (rm : cmd.resourceMatch) :
  template !! "Resources" = Some (VMap resources) →
  resources !! id = Some resourceData →
  rm ∈ cmd.search_go.searchTemplate template resType filters ∧ cmd.logicalID rm = id
  ↔ search_entry resType filters (id, resourceData) = Some rm.
Proof.
  intros Htemplate Hentry. rewrite elem_of_search_searchTemplate. split.
  - intros [(resources' & data & Htemplate' & Hdata & Hrm) <-].
    rewrite Htemplate in Htemplate'. injection Htemplate' as <-.
    rewrite Hentry in Hdata. by injection Hdata as <-.
  - intros Hrm. pose proof (search_entry_logicalID _ _ _ _ Hrm) as Hid.
    simpl in Hid. subst id. split; [|done]. by exists resources, resourceData.
Qed.

Lemma size_filters_positive (filters : gmap string string) :
  0 < size filters ↔ filters ≠ ∅.
Proof. rewrite <- map_size_non_empty_iff. lia. Qed.

(** C1: take a resource of the searched type.  With a non-empty set of
    property filters and a mapping under [Properties], the search command
    reports the resource if and only if every filter [(path, expected)]
    resolves to a value (not the absence signal) whose display form is
    exactly [expected]; the reported match then maps each filter's path,
    and nothing else, to its resolved value.  With no property filter the
    resource is reported on its type alone, with an empty map.  With
    filters but no mapping under [Properties] it is not reported. *)
Theorem property_filters_all_hold (template resources resourceMap : gmap string value) (id resType : string) (filters : gmap string string) :
  template !! "Resources" = Some (VMap resources) →
  resources !! id = Some (VMap resourceMap) →
  resourceMap !! "Type" = Some (VString resType) →
  (∀ properties,
     resourceMap !! "Properties" = Some (VMap properties) →
     filters ≠ ∅ →
     ∀ rm,
       rm ∈ cmd.search_go.searchTemplate template resType filters ∧ cmd.logicalID rm = id
       ↔ (∀ path expected, filters !! path = Some expected →
            cmd.getNestedProperty properties path ≠ VNil
            ∧ Sprintf_v (cmd.getNestedProperty properties path) = expected)
         ∧ cmd.logicalID rm = id
         ∧ cmd.resourceType rm = resType
         ∧ ∀ path, cmd.matchedProperties rm !! path
                   = (λ _, cmd.getNestedProperty properties path) <$> (filters !! path))
  ∧ (filters = ∅ →
     ∀ rm,
       rm ∈ cmd.search_go.searchTemplate template resType filters ∧ cmd.logicalID rm = id
       ↔ rm = {| cmd.logicalID := id; cmd.resourceType := resType;
                 cmd.matchedProperties := ∅ |})
  ∧ (filters ≠ ∅ →
     (∀ properties, resourceMap !! "Properties" ≠ Some (VMap properties)) →
     ∀ rm, rm ∈ cmd.search_go.searchTemplate template resType filters →
           cmd.logicalID rm ≠ id).
Proof.
  intros Htemplate Hentry Htype.
  assert (∀ rm,
    rm ∈ cmd.search_go.searchTemplate template resType filters ∧ cmd.logicalID rm = id
    ↔ (if bool_decide (0 < size filters) then
         match resourceMap !! "Properties" with
         | Some (VMap properties) =>
             if (cmd.checkProperties properties filters).1 then
               Some {| cmd.logicalID := id; cmd.resourceType := resType;
                       cmd.matchedProperties := (cmd.checkProperties properties filters).2 |}
             else None
         | _ => None
         end
       else Some {| cmd.logicalID := id; cmd.resourceType := resType;
                    cmd.matchedProperties := ∅ |}) = Some rm) as Hiter.
  { intros rm. rewrite (search_entry_at _ _ _ _ _ _ _ Htemplate Hentry).
    unfold search_entry. simpl. rewrite Htype, String.eqb_refl. done. }
  split_and!.
  - intros properties Hprops Hne rm. rewrite Hiter, Hprops.
    rewrite bool_decide_eq_true_2 by by apply size_filters_positive.
    destruct (checkProperties_cases properties filters) as [[mp Hcheck]|Hcheck];
      rewrite Hcheck; simpl.
    + apply checkProperties_true in Hcheck as [Hall Hmp]. split.
      * intros [= <-]. done.
      * intros (_ & Hid & Hty & Hmp'). destruct rm as [i t m]. simpl in *.
        subst i t. do 2 f_equal. apply map_eq. intros path.
        by rewrite Hmp, Hmp'.
    + split; [done|]. intros (Hall & _).
      assert (cmd.checkProperties properties filters
              = (true, recorded properties (map_to_list filters) ∅)) as Htrue.
      { unfold cmd.checkProperties. rewrite checkPropertiesLoop_spec.
        by rewrite (proj2 (forallb_filter_holdsb properties filters) Hall). }
      congruence.
  - intros -> rm. rewrite Hiter. rewrite bool_decide_eq_false_2.
    + split; [by intros [= <-] | by intros ->].
    + rewrite map_size_empty. lia.
  - intros Hne Hprops rm Hin Hid.
    assert (rm ∈ cmd.search_go.searchTemplate template resType filters
            ∧ cmd.logicalID rm = id) as Hrm by done.
    apply Hiter in Hrm.
    rewrite bool_decide_eq_true_2 in Hrm by by apply size_filters_positive.
    destruct (resourceMap !! "Properties") as [[| | | | | |properties|]|] eqn:Hp;
      try done.
    by destruct (Hprops properties).
Qed.

(** C5: in the list command's matcher, every reported match comes from an
    entry of [Resources] that is a mapping with a string under [Type], and
    under a non-empty type filter its type is the filter itself; so an
    entry that is not a mapping, or has no string [Type], or has another
    type than the filter (a prefix of it included), is never reported.
    The matcher is a total function: such entries raise nothing. *)
Theorem malformed_resources_are_skipped (template resources : gmap string value) (resType resName : string) (filters : gmap string string) :
  template !! "Resources" = Some (VMap resources) →
  (∀ rm, rm ∈ cmd.list_go.searchTemplate template resType resName filters →
     ∃ resourceMap,
       resources !! cmd.logicalID rm = Some (VMap resourceMap)
       ∧ resourceMap !! "Type" = Some (VString (cmd.resourceType rm))
       ∧ (resType ≠ "" → cmd.resourceType rm = resType))
  ∧ (∀ id resourceData,
       resources !! id = Some resourceData →
       (∀ resourceMap, resourceData ≠ VMap resourceMap) →
       ∀ rm, rm ∈ cmd.list_go.searchTemplate template resType resName filters →
             cmd.logicalID rm ≠ id)
  ∧ (∀ id resourceMap,
       resources !! id = Some (VMap resourceMap) →
       (∀ currentType, resourceMap !! "Type" ≠ Some (VString currentType)) →
       ∀ rm, rm ∈ cmd.list_go.searchTemplate template resType resName filters →
             cmd.logicalID rm ≠ id)
  ∧ (∀ id resourceMap currentType,
       resources !! id = Some (VMap resourceMap) →
       resourceMap !! "Type" = Some (VString currentType) →
       resType ≠ "" →
       currentType ≠ resType →
       ∀ rm, rm ∈ cmd.list_go.searchTemplate template resType resName filters →
             cmd.logicalID rm ≠ id).
Proof.
  intros Htemplate.
  assert (∀ rm, rm ∈ cmd.list_go.searchTemplate template resType resName filters →
     ∃ resourceMap,
       resources !! cmd.logicalID rm = Some (VMap resourceMap)
       ∧ resourceMap !! "Type" = Some (VString (cmd.resourceType rm))
       ∧ (resType ≠ "" → cmd.resourceType rm = resType)) as Hwell.
  { intros rm (resources' & data & Htemplate' & Hdata & Hrm)%elem_of_list_searchTemplate.
    rewrite Htemplate in Htemplate'. injection Htemplate' as <-.
    unfold list_entry in Hrm. simpl in Hrm.
    destruct data as [| | | | | |resourceMap|]; try done.
    destruct (resourceMap !! "Type") as [[| | | |currentType| | |]|] eqn:Htype;
      try done.
    exists resourceMap.
    assert (cmd.resourceType rm = currentType) as ->
      by (repeat (case_match; try done); by injection Hrm as <-).
    split_and!; [done..|]. intros Hne%String.eqb_neq. rewrite Hne in Hrm.
    destruct (String.eqb_spec currentType resType) as [Heq|Hneq]; done. }
  split_and!.
  - exact Hwell.
  - intros id data Hdata Hshape rm Hin <-.
    destruct (Hwell rm Hin) as (resourceMap & Hlookup & _).
    rewrite Hdata in Hlookup. injection Hlookup as ->. by destruct (Hshape resourceMap).
  - intros id resourceMap Hdata Hnotype rm Hin <-.
    destruct (Hwell rm Hin) as (resourceMap' & Hlookup & Htype & _).
    rewrite Hdata in Hlookup. injection Hlookup as <-.
    by destruct (Hnotype (cmd.resourceType rm)).
  - intros id resourceMap currentType Hdata Htype Hfilter Hother rm Hin <-.
    destruct (Hwell rm Hin) as (resourceMap' & Hlookup & Htype' & Hexact).
    rewrite Hdata in Hlookup. injection Hlookup as <-.
    rewrite Htype in Htype'. injection Htype' as ->. by apply Hother, Hexact.
Qed.

End matcher_properties.

(** The versioned bucket of the example is reported for
    [Versioning.Status=Enabled], with that one entry. *)
Lemma property_filters_all_hold_example :
  {| cmd.logicalID := "Logs"; cmd.resourceType := "AWS::S3::Bucket";
     cmd.matchedProperties := {[ "Versioning.Status" := VString "Enabled" ]} |}
  ∈ cmd.search_go.searchTemplate (lib := example.lib) example.bucketTemplate
      "AWS::S3::Bucket" {[ "Versioning.Status" := "Enabled" ]}.
Proof.
  destruct (property_filters_all_hold (lib := example.lib)
              example.bucketTemplate example.bucketResources example.logsResource
              "Logs" "AWS::S3::Bucket" {[ "Versioning.Status" := "Enabled" ]}
              eq_refl eq_refl eq_refl) as (Hfilters & _ & _).
  apply (Hfilters example.bucketProperties eq_refl).
  - apply map_non_empty_singleton.
  - split_and!; try reflexivity.
    + intros path expected [<- <-]%lookup_singleton_Some.
      split; [discriminate | reflexivity].
    + intros path. simpl. destruct (decide (path = "Versioning.Status")) as [->|Hne].
      * reflexivity.
      * by rewrite !lookup_singleton_ne.
Defined.

(** The product of the example matches [ProductName=IAMRole] alone, but
    not together with [ProvisioningArtifactName=3.0.0]. *)
Lemma property_filters_conjunction_example :
  cmd.search_go.searchTemplate (lib := example.lib) example.roleTemplate
    "AWS::ServiceCatalog::CloudFormationProvisionedProduct"
    {[ "ProductName" := "IAMRole" ]}
  = [ {| cmd.logicalID := "Role";
         cmd.resourceType := "AWS::ServiceCatalog::CloudFormationProvisionedProduct";
         cmd.matchedProperties := {[ "ProductName" := VString "IAMRole" ]} |} ]
  ∧ cmd.search_go.searchTemplate (lib := example.lib) example.roleTemplate
      "AWS::ServiceCatalog::CloudFormationProvisionedProduct"
      {[ "ProductName" := "IAMRole"; "ProvisioningArtifactName" := "3.0.0" ]}
    = [].
Proof. split; vm_compute; reflexivity. Qed.

(** With the filter [AWS::S3::BucketPolicy], neither the bucket nor the
    scalar entry of the example is reported by the list command. *)
Lemma malformed_resources_are_skipped_example :
  Forall (λ rm, cmd.logicalID rm ≠ "Logs" ∧ cmd.logicalID rm ≠ "Note")
    (cmd.list_go.searchTemplate (lib := example.lib) example.bucketTemplate
       "AWS::S3::BucketPolicy" "" ∅).
Proof.
  destruct (malformed_resources_are_skipped (lib := example.lib)
              example.bucketTemplate example.bucketResources
              "AWS::S3::BucketPolicy" "" ∅ eq_refl)
    as (_ & Hshape & _ & Hexact).
  apply Forall_forall. intros rm Hin. split.
  - apply (Hexact "Logs" example.logsResource "AWS::S3::Bucket");
      [reflexivity | reflexivity | discriminate | discriminate | exact Hin].
  - apply (Hshape "Note" (VString "scalar")); [reflexivity | discriminate | exact Hin].
Defined.

Section two_matchers.
Context {lib : GoLib} {aws : Cfn}.

(** C9: under a non-empty resource-type filter, the matcher of the search
    command and the matcher of the list command called with an empty
    resource-name filter report the same matches (the same logical IDs,
    types and matched-properties maps): the same list when both visit the
    resources in the same order, the same matches up to order when they
    visit them in different orders; on a parsed template and from the
    fetch on. *)
Theorem matchers_agree (resourceType : string) :
  resourceType ≠ "" →
  (∀ propertyFilters resources resources',
     resources ≡ₚ resources' →
     cmd.search_go.searchResources resourceType propertyFilters resources []
     ≡ₚ cmd.list_go.searchResources resourceType "" propertyFilters resources' [])
  ∧ (∀ template propertyFilters,
     cmd.search_go.searchTemplate template resourceType propertyFilters
     = cmd.list_go.searchTemplate template resourceType "" propertyFilters)
  ∧ (∀ client stackName propertyFilters,
       cmd.search_go.searchStackTemplate client stackName resourceType propertyFilters
       = cmd.list_go.searchStackTemplate client stackName resourceType "" propertyFilters).
Proof.
  intros Hne.
  assert (∀ template propertyFilters,
     cmd.search_go.searchTemplate template resourceType propertyFilters
     = cmd.list_go.searchTemplate template resourceType "" propertyFilters) as Hsame.
  { intros template propertyFilters.
    unfold cmd.search_go.searchTemplate, cmd.list_go.searchTemplate.
    destruct (template !! "Resources") as [[| | | | | |resources|]|]; try done.
    rewrite search_searchResources_omap, list_searchResources_omap. f_equal.
    apply list_omap_ext, Forall2_same_length_lookup. split; [done|].
    intros i entry entry' Hentry Hentry'. simplify_eq.
    symmetry. by apply list_entry_search_entry. }
  split_and!; [|exact Hsame|].
  { intros propertyFilters resources resources' Hperm.
    rewrite search_searchResources_omap, list_searchResources_omap. simpl.
    rewrite Hperm.
    rewrite (list_omap_ext (search_entry resourceType propertyFilters)
               (list_entry resourceType "" propertyFilters) resources' resources');
      [done|].
    apply Forall2_same_length_lookup. split; [done|].
    intros i entry entry' Hentry Hentry'. simplify_eq.
    symmetry. by apply list_entry_search_entry. }
  intros client stackName propertyFilters.
  unfold cmd.search_go.searchStackTemplate, cmd.list_go.searchStackTemplate.
  destruct (GetTemplate client stackName) as [TemplateBody|err]; [|done].
  destruct (cmd.parseTemplate (getValue TemplateBody)) as [template|err]; [|done].
  by rewrite Hsame.
Qed.

End two_matchers.

Lemma matchers_agree_example :
  cmd.search_go.searchStackTemplate (lib := example.lib) (aws := example.aws) () "storage" "AWS::S3::Bucket" ∅
  = cmd.list_go.searchStackTemplate (lib := example.lib) (aws := example.aws) () "storage" "AWS::S3::Bucket" "" ∅.
Proof.
  apply (matchers_agree (lib := example.lib) (aws := example.aws) "AWS::S3::Bucket").
  discriminate.
Defined.

(** Without a type filter the two matchers part: search.go compares every
    type with the empty string, list.go does not filter by type. *)
Lemma matchers_differ_without_type :
  cmd.search_go.searchTemplate (lib := example.lib) example.bucketTemplate "" ∅ = []
  ∧ cmd.list_go.searchTemplate (lib := example.lib) example.bucketTemplate "" "" ∅
    = [ {| cmd.logicalID := "Logs"; cmd.resourceType := "AWS::S3::Bucket";
           cmd.matchedProperties := ∅ |} ].
Proof. split; vm_compute; reflexivity. Qed.

(** ** The template parser *)

(** C3: an empty body is refused as an empty template; a non-empty body
    that the JSON decoder accepts parses to the JSON document, whatever the
    YAML decoder would say of it; one that only the YAML decoder accepts
    parses to the YAML document; one that neither accepts is refused as
    unparsable.  A parsed document is always the whole document of one of
    the two decoders. *)
Theorem parseTemplate_fallback {lib : GoLib} (body : string) :
  (body = "" → cmd.parseTemplate body = Err "empty template")
  ∧ (body ≠ "" → ∀ template,
       json_Unmarshal body = Ok template → cmd.parseTemplate body = Ok template)
  ∧ (∀ lib' : GoLib,
       @json_Unmarshal lib' body = @json_Unmarshal lib body →
       (∃ template, @json_Unmarshal lib body = Ok template) →
       cmd.parseTemplate (lib := lib') body = cmd.parseTemplate (lib := lib) body)
  ∧ (body ≠ "" → ∀ err template,
       json_Unmarshal body = Err err → yaml_Unmarshal body = Ok template →
       cmd.parseTemplate body = Ok template)
  ∧ (body ≠ "" → ∀ err err',
       json_Unmarshal body = Err err → yaml_Unmarshal body = Err err' →
       cmd.parseTemplate body = Err ("failed to parse template: " +:+ err'))
  ∧ (∀ template,
       cmd.parseTemplate body = Ok template →
       json_Unmarshal body = Ok template ∨ yaml_Unmarshal body = Ok template).
Proof.
  unfold cmd.parseTemplate. split_and!.
  - by intros ->.
  - intros Hne%String.eqb_neq template Hjson. by rewrite Hne, Hjson.
  - intros lib' Hsame [template Hjson]. rewrite Hsame, Hjson.
    by destruct (String.eqb body "").
  - intros Hne%String.eqb_neq err template Hjson Hyaml. by rewrite Hne, Hjson, Hyaml.
  - intros Hne%String.eqb_neq err err' Hjson Hyaml. by rewrite Hne, Hjson, Hyaml.
  - intros template. destruct (String.eqb body ""); [done|].
    destruct (json_Unmarshal body) as [t|e]; [intros [= <-]; by left|].
    destruct (yaml_Unmarshal body) as [t|e']; [intros [= <-]; by right | done].
Qed.

(** The JSON and the YAML template of the example, an empty body and an
    unfinished one. *)
Lemma parseTemplate_fallback_example :
  cmd.parseTemplate (lib := example.lib) example.bucketJSON = Ok example.bucketTemplate
  ∧ cmd.parseTemplate (lib := example.lib) example.roleYAML = Ok example.roleTemplate
  ∧ cmd.parseTemplate (lib := example.lib) "" = Err "empty template"
  ∧ cmd.parseTemplate (lib := example.lib) "{"
    = Err "failed to parse template: yaml: unmarshal errors".
Proof.
  split_and!.
  - destruct (parseTemplate_fallback (lib := example.lib) example.bucketJSON)
      as (_ & Hjson & _).
    apply Hjson; [discriminate | reflexivity].
  - destruct (parseTemplate_fallback (lib := example.lib) example.roleYAML)
      as (_ & _ & _ & Hyaml & _).
    apply (Hyaml ltac:(discriminate) "invalid character"); reflexivity.
  - destruct (parseTemplate_fallback (lib := example.lib) "") as (Hempty & _).
    by apply Hempty.
  - destruct (parseTemplate_fallback (lib := example.lib) "{")
      as (_ & _ & _ & _ & Hnone & _).
    apply (Hnone ltac:(discriminate) "invalid character" "yaml: unmarshal errors");
      reflexivity.
Defined.

(** ** The search over the stacks *)

Section search_loop.
Context {lib : GoLib} {aws : Cfn}.

Lemma search_searchStacks_spec (client : Client) (resourceType : string) (propertyFilters : gmap string string) (stacks : list StackSummary) (matchingStacks : list cmd.stackMatch) (log : list cmd.event) :
  cmd.search_go.searchStacks client resourceType propertyFilters stacks matchingStacks log
  = (matchingStacks ++ flat_map (stack_result client resourceType propertyFilters) stacks,
     log ++ omap (λ stack, cmd.GetTemplateCall <$> StackName stack) stacks).
Proof.
  revert matchingStacks log.
  induction stacks as [|stack stacks IH]; intros matchingStacks log; simpl.
  - by rewrite !app_nil_r.
  - unfold stack_result at 1.
    destruct (StackName stack) as [name|]; simpl; [|apply IH].
    destruct (cmd.search_go.searchStackTemplate client name resourceType propertyFilters)
      as [[|m matches]|err]; simpl; rewrite IH, <- ?app_assoc; done.
Qed.

Lemma unreadable_Err (client : Client) (stack : StackSummary) (resourceType : string) (propertyFilters : gmap string string) :
  unreadable client stack →
  ∃ name err,
    StackName stack = Some name
    ∧ cmd.search_go.searchStackTemplate client name resourceType propertyFilters = Err err.
Proof.
  intros (name & Hname & Hcause). exists name.
  unfold cmd.search_go.searchStackTemplate, cmd.parseTemplate.
  destruct Hcause as [[err ->]|[(body & -> & ->)|(body & e1 & e2 & -> & -> & ->)]].
  - by exists err.
  - by eexists.
  - destruct (String.eqb (getValue body) ""); by eexists.
Qed.

(** C2: the Search Result is, in the order of the input stacks, one Stack
    Match for each stack that has a name, whose template is fetched and
    parsed, and in which at least one resource matched.  A stack whose
    fetch fails, whose body is empty or which neither decoder accepts
    contributes nothing and changes nothing for the others: the result is
    the one obtained without that stack.  Once the stacks are listed the
    command ends normally with this result, whatever fails inside the
    loop. *)
Theorem failures_skip_one_stack (client : Client) (resourceType : string) (propertyFilters : gmap string string) :
  (∀ stacks,
     (cmd.search_go.searchStacks client resourceType propertyFilters stacks [] []).1
     = flat_map (stack_result client resourceType propertyFilters) stacks)
  ∧ (∀ stack name matches,
       StackName stack = Some name →
       cmd.search_go.searchStackTemplate client name resourceType propertyFilters = Ok matches →
       matches ≠ [] →
       stack_result client resourceType propertyFilters stack
       = [{| cmd.stackName := name; cmd.resources := matches |}])
  ∧ (∀ stack,
       unreadable client stack →
       stack_result client resourceType propertyFilters stack = [])
  ∧ (∀ before failing after,
       unreadable client failing →
       (cmd.search_go.searchStacks client resourceType propertyFilters
          (before ++ failing :: after) [] []).1
       = (cmd.search_go.searchStacks client resourceType propertyFilters
          (before ++ after) [] []).1)
  ∧ (∀ fl stacks,
       mustClient = Some client →
       cmd.parsePropertyFilters (cmd.search_go.searchProperties fl) ∅ = inr propertyFilters →
       listStacks client
         (buildStatusFilters (cmd.search_go.searchFilterAll fl)
            (cmd.search_go.searchFilterComplete fl)
            (cmd.search_go.searchFilterDeleted fl)
            (cmd.search_go.searchFilterInProgress fl)) "" "" "" = Ok stacks →
       stacks ≠ [] →
       (cmd.search_go.runSearch fl resourceType).1
       = cmd.Searched (flat_map (stack_result client resourceType propertyFilters) stacks)).
Proof.
  assert (∀ stack, unreadable client stack →
            stack_result client resourceType propertyFilters stack = []) as Hskip.
  { intros stack Hbad.
    destruct (unreadable_Err client stack resourceType propertyFilters Hbad)
      as (name & err & Hname & Herr).
    unfold stack_result. by rewrite Hname, Herr. }
  split_and!.
  - intros stacks. by rewrite search_searchStacks_spec.
  - intros stack name matches Hname Hmatches Hne.
    unfold stack_result. rewrite Hname, Hmatches. by destruct matches.
  - exact Hskip.
  - intros before failing after Hbad. rewrite !search_searchStacks_spec. simpl.
    rewrite !flat_map_app. simpl. by rewrite (Hskip failing Hbad).
  - intros fl stacks Hclient Hfilters Hlist Hne.
    unfold cmd.search_go.runSearch. rewrite Hclient, Hfilters, Hlist.
    rewrite bool_decide_eq_false_2 by by destruct stacks.
    by rewrite search_searchStacks_spec.
Qed.

End search_loop.

(** Three stacks, the second of which cannot be fetched: the matches of
    the first and the third are reported, as without the second. *)
Lemma failures_skip_one_stack_example :
  (cmd.search_go.runSearch (lib := example.lib) (aws := example.aws)
     (example.searchFlags []) "AWS::S3::Bucket").1
  = cmd.Searched
      [ {| cmd.stackName := "storage";
           cmd.resources := [ {| cmd.logicalID := "Logs";
                                 cmd.resourceType := "AWS::S3::Bucket";
                                 cmd.matchedProperties := ∅ |} ] |};
        {| cmd.stackName := "Archive-Storage";
           cmd.resources := [ {| cmd.logicalID := "Logs";
                                 cmd.resourceType := "AWS::S3::Bucket";
                                 cmd.matchedProperties := ∅ |} ] |} ]
  ∧ (cmd.search_go.searchStacks (lib := example.lib) (aws := example.aws) ()
       "AWS::S3::Bucket" ∅ ([example.storage] ++ example.broken :: [example.archive]) [] []).1
    = (cmd.search_go.searchStacks (lib := example.lib) (aws := example.aws) ()
       "AWS::S3::Bucket" ∅ ([example.storage] ++ [example.archive]) [] []).1.
Proof.
  destruct (failures_skip_one_stack (lib := example.lib) (aws := example.aws) ()
              "AWS::S3::Bucket" ∅) as (_ & _ & _ & Hisolated & Hcommand).
  split.
  - rewrite (Hcommand (example.searchFlags [])
               [example.storage; example.broken; example.archive]
               eq_refl eq_refl eq_refl ltac:(discriminate)).
    vm_compute. reflexivity.
  - apply Hisolated. exists "broken". split; [reflexivity|].
    left. exists "AccessDenied". reflexivity.
Defined.

(** ** The status and name filter (main.go) *)

Section stack_filter.
Context {lib : GoLib}.

Lemma filterLoop_spec (active complete deleted inProgress : bool) (nameFilter : string) (stacks filtered : list StackSummary) :
  nameFilter = "" ∨ Forall (λ stack, is_Some (StackName stack)) stacks →
  main_go.filterLoop (negb active && negb complete && negb deleted && negb inProgress)
    active complete deleted inProgress nameFilter stacks filtered
  = Some (filtered ++ List.filter (kept active complete deleted inProgress nameFilter) stacks).
Proof.
  revert filtered. induction stacks as [|stack stacks IH]; intros filtered Hnames; simpl.
  - by rewrite app_nil_r.
  - assert (nameFilter = "" ∨ Forall (λ stack, is_Some (StackName stack)) stacks) as Hrest.
    { destruct Hnames as [?|[_ ?]%Forall_cons]; auto. }
    unfold kept at 1, name_kept, status_kept.
    destruct (String.eqb_spec nameFilter "") as [Hempty|Hfilter]; simpl.
    + destruct (negb active && negb complete && negb deleted && negb inProgress).
      * destruct (strings.HasPrefix (StackStatus stack) "DELETE_COMPLETE"); simpl;
          rewrite IH, <- ?app_assoc; done.
      * destruct active, complete, deleted, inProgress,
          (main_go.isActiveStatus (StackStatus stack)),
          (main_go.isCompleteStatus (StackStatus stack)),
          (main_go.isDeletedStatus (StackStatus stack)),
          (main_go.isInProgressStatus (StackStatus stack)); simpl;
          rewrite IH, <- ?app_assoc; done.
    + destruct Hnames as [?|[[name Hname] _]%Forall_cons]; [done|].
      rewrite Hname.
      destruct (strings.Contains (ToLower name) (ToLower nameFilter)); simpl;
        [|by apply IH].
      destruct (negb active && negb complete && negb deleted && negb inProgress).
      * destruct (strings.HasPrefix (StackStatus stack) "DELETE_COMPLETE"); simpl;
          rewrite IH, <- ?app_assoc; done.
      * destruct active, complete, deleted, inProgress,
          (main_go.isActiveStatus (StackStatus stack)),
          (main_go.isCompleteStatus (StackStatus stack)),
          (main_go.isDeletedStatus (StackStatus stack)),
          (main_go.isInProgressStatus (StackStatus stack)); simpl;
          rewrite IH, <- ?app_assoc; done.
Qed.

(** C6 as the code has it: with named stacks (or no name filter),
    [filterStacks] keeps, in order, the stacks that pass both the name
    filter and the status decision.  The name filter, when given, is a
    substring test on the lower-cased name.  With no status flag the
    status passes unless it starts with [DELETE_COMPLETE]; with flags it
    passes when it satisfies at least one requested category. *)
Theorem filterStacks_policy (stacks : list StackSummary) (active complete deleted inProgress : bool) (nameFilter : string) :
  nameFilter = "" ∨ Forall (λ stack, is_Some (StackName stack)) stacks →
  main_go.filterStacks stacks active complete deleted inProgress nameFilter
  = Some (List.filter (kept active complete deleted inProgress nameFilter) stacks)
  ∧ (∀ stack,
       kept active complete deleted inProgress nameFilter stack = true
       ↔ (nameFilter = ""
          ∨ ∃ name front back,
              StackName stack = Some name
              ∧ ToLower name = front +:+ ToLower nameFilter +:+ back)
         ∧ status_kept active complete deleted inProgress (StackStatus stack) = true)
  ∧ (∀ status,
       status_kept false false false false status = true
       ↔ ¬ ∃ rest, status = "DELETE_COMPLETE" +:+ rest)
  ∧ (∀ status,
       active = true ∨ complete = true ∨ deleted = true ∨ inProgress = true →
       status_kept active complete deleted inProgress status = true
       ↔ (active = true ∧ main_go.isActiveStatus status = true)
         ∨ (complete = true ∧ main_go.isCompleteStatus status = true)
         ∨ (deleted = true ∧ main_go.isDeletedStatus status = true)
         ∨ (inProgress = true ∧ main_go.isInProgressStatus status = true)).
Proof.
  intros Hnames. split_and!.
  - unfold main_go.filterStacks. by rewrite filterLoop_spec.
  - intros stack. unfold kept, name_kept.
    rewrite andb_true_iff, orb_true_iff, String.eqb_eq.
    apply and_iff_compat_r, or_iff_compat_l.
    destruct (StackName stack) as [name|].
    + rewrite Contains_spec. split.
      * intros (front & back & Heq). by exists name, front, back.
      * intros (name' & front & back & [= <-] & Heq). by exists front, back.
    + split; [done | by intros (? & ? & ? & ? & _)].
  - intros status. unfold status_kept. simpl.
    rewrite negb_true_iff, <- HasPrefix_spec. by destruct (strings.HasPrefix _ _).
  - intros status Hflag. unfold status_kept.
    clear Hnames.
    destruct active, complete, deleted, inProgress,
      (main_go.isActiveStatus status), (main_go.isCompleteStatus status),
      (main_go.isDeletedStatus status), (main_go.isInProgressStatus status);
      simpl; intuition congruence.
Qed.

End stack_filter.

(** With no flag and the name filter [storage], the two storage stacks
    are kept, whatever the case of their names. *)
Lemma filterStacks_policy_example :
  main_go.filterStacks (lib := example.lib)
    [example.storage; example.broken; example.archive; example.identity]
    false false false false "storage"
  = Some [example.storage; example.archive].
Proof.
  destruct (filterStacks_policy (lib := example.lib)
              [example.storage; example.broken; example.archive; example.identity]
              false false false false "storage") as [Hfilter _].
  - right. repeat constructor; by eexists.
  - rewrite Hfilter. vm_compute. reflexivity.
Defined.

(** On the statuses the service defines, the prefix test of the default
    view singles out [DELETE_COMPLETE]. *)
Lemma default_view_on_service_statuses :
  Forall (λ status,
            status_kept false false false false status = true
            ↔ status ≠ "DELETE_COMPLETE") StackStatus_values.
Proof.
  apply Forall_forall. intros status Hin. unfold StackStatus_values in Hin.
  repeat (apply elem_of_cons in Hin as [->|Hin]);
    try (split;
         [ intros Hkept Heq; first [discriminate Heq | vm_compute in Hkept; discriminate Hkept]
         | intros Hne; first [by destruct Hne | vm_compute; reflexivity] ]).
  by apply elem_of_nil in Hin.
Qed.

(** With no status flag, a stack whose status is not [DELETE_COMPLETE]
    but starts with it is left out. *)
Lemma default_view_is_a_prefix_test :
  "DELETE_COMPLETE_CLEANUP" ≠ "DELETE_COMPLETE"
  ∧ main_go.filterStacks (lib := example.lib)
      [ {| StackName := Some "storage"; StackStatus := "DELETE_COMPLETE_CLEANUP" |} ]
      false false false false ""
    = Some [].
Proof. split; [discriminate | vm_compute; reflexivity]. Qed.

(** ** Property-filter tokens *)

Lemma parsePropertyFilters_rejects (props : list string) (propertyFilters : gmap string string) :
  (∃ prop, prop ∈ props ∧ occurs "="%char prop = false)
  ↔ ∃ prop, cmd.parsePropertyFilters props propertyFilters = inl (cmd.invalid_property_format prop)
            ∧ prop ∈ props ∧ occurs "="%char prop = false.
Proof.
  split; [|intros (prop & _ & Hin & Hbad); by exists prop].
  revert propertyFilters. induction props as [|prop props IH]; intros acc.
  - by intros (? & ?%elem_of_nil & _).
  - intros (bad & Hin & Hbad).
    change (cmd.parsePropertyFilters (prop :: props) acc)
      with (match strings.SplitN2 prop "="%char with
            | [key; val] => cmd.parsePropertyFilters props (<[key := val]> acc)
            | _ => inl (cmd.invalid_property_format prop)
            end).
    destruct (SplitN2_parts prop "="%char) as [[Hnone Heq]|(k & v & Hprop & Hk & Heq)];
      rewrite Heq.
    + exists prop. split_and!; [done | by left | done].
    + apply elem_of_cons in Hin as [->|Hin].
      * exfalso. rewrite Hprop, occurs_append in Hbad. simpl in Hbad.
        by rewrite orb_true_r in Hbad.
      * destruct (IH (<[k := v]> acc)) as (p & Hp & Hpin & Hpbad); [by exists bad|].
        exists p. split_and!; [done | by right | done].
Qed.

Section property_tokens.
Context {lib : GoLib} {aws : Cfn}.

(** The search command refuses a malformed token before it lists. *)
Lemma runSearch_rejects_before_listing (fl : cmd.search_go.flags) (resourceType : string) (client : Client) (prop : string) :
  mustClient = Some client →
  cmd.parsePropertyFilters (cmd.search_go.searchProperties fl) ∅
    = inl (cmd.invalid_property_format prop) →
  cmd.search_go.runSearch fl resourceType
  = (cmd.Fatal (cmd.invalid_property_format prop), []).
Proof.
  intros Hclient Hbad. unfold cmd.search_go.runSearch. by rewrite Hclient, Hbad.
Qed.

(** The list command lists first: the malformed token is reported after
    the call, or not at all when the call fails. *)
Lemma runList_lists_before_rejecting (fl : cmd.list_go.flags) (client : Client) (prop : string) :
  mustClient = Some client →
  cmd.parsePropertyFilters (cmd.list_go.properties fl) ∅
    = inl (cmd.invalid_property_format prop) →
  (∀ stacks,
     listStacks client
       (buildStatusFilters (cmd.list_go.filterAll fl) (cmd.list_go.filterComplete fl)
          (cmd.list_go.filterDeleted fl) (cmd.list_go.filterInProgress fl))
       (cmd.list_go.nameFilter fl) (cmd.list_go.descContains fl)
       (cmd.list_go.descNotContains fl) = Ok stacks →
     cmd.list_go.runList fl []
     = (cmd.Fatal (cmd.invalid_property_format prop), [cmd.ListStacksCall]))
  ∧ (∀ err,
     listStacks client
       (buildStatusFilters (cmd.list_go.filterAll fl) (cmd.list_go.filterComplete fl)
          (cmd.list_go.filterDeleted fl) (cmd.list_go.filterInProgress fl))
       (cmd.list_go.nameFilter fl) (cmd.list_go.descContains fl)
       (cmd.list_go.descNotContains fl) = Err err →
     cmd.list_go.runList fl []
     = (cmd.Fatal (cmd.failed_to_list_stacks err), [cmd.ListStacksCall])).
Proof.
  intros Hclient Hbad. unfold cmd.list_go.runList. simpl. rewrite Hclient.
  split.
  - intros stacks ->. unfold cmd.list_go.runResourceSearch. rewrite Hbad.
    destruct (cmd.list_go.properties fl) as [|p ps]; [done|]. simpl.
    by rewrite orb_true_r.
  - by intros err ->.
Qed.

End property_tokens.

(** C8 on the list command: with the token [ProductName] (no [=]) the
    command first lists the stacks and only then stops on the token, and
    when the listing fails the token is not reported at all; the search
    command stops on the same token before any call. *)
Theorem list_command_lists_before_rejecting :
  cmd.list_go.runList (lib := example.lib) (aws := example.aws)
    (example.listFlags "" ["ProductName"]) []
  = (cmd.Fatal (cmd.invalid_property_format "ProductName"), [cmd.ListStacksCall])
  ∧ (∀ (aws : Cfn) (client : Client) (err : error),
       mustClient = Some client →
       (∀ statusFilters name desc noDesc,
          listStacks client statusFilters name desc noDesc = Err err) →
       cmd.list_go.runList (lib := example.lib) (aws := aws)
         (example.listFlags "" ["ProductName"]) []
       = (cmd.Fatal (cmd.failed_to_list_stacks err), [cmd.ListStacksCall]))
  ∧ cmd.search_go.runSearch (lib := example.lib) (aws := example.aws)
      (example.searchFlags ["ProductName"]) "AWS::S3::Bucket"
    = (cmd.Fatal (cmd.invalid_property_format "ProductName"), []).
Proof.
  split_and!.
  - vm_compute. reflexivity.
  - intros aws client err Hclient Hlist.
    by apply (runList_lists_before_rejecting (aws := aws)
                (example.listFlags "" ["ProductName"]) client "ProductName").
  - vm_compute. reflexivity.
Qed.

(** ** More of main.go *)

Lemma append_assoc (a b c : string) : (a +:+ b) +:+ c = a +:+ (b +:+ c).
Proof. induction a as [|x a IH]; [done | by rewrite !append_cons, IH]. Qed.

Lemma length_slice_to (s : string) (n : nat) :
  n ≤ String.length s → String.length (strings.slice_to n s) = n.
Proof.
  unfold strings.slice_to. revert n.
  induction s as [|c s IH]; intros [|n] Hn; simpl in *; try done; try lia.
  f_equal. apply IH. lia.
Qed.

Lemma int_wrap_small (z : Z) :
  (- 2 ^ 63 ≤ z < 2 ^ 63)%Z → main_go.int_wrap z = z.
Proof. intros Hz. unfold main_go.int_wrap. rewrite Z.mod_small; lia. Qed.

(** For a width of at least three, [truncate] returns a string no longer
    than the width: the string itself when it fits, else its first
    [maxLen - 3] bytes followed by three dots, [maxLen] bytes in all. *)
Theorem truncate_bounded (s : string) (maxLen : Z) :
  (3 ≤ maxLen < 2 ^ 63)%Z →
  ∃ shown,
    main_go.truncate s maxLen = Some shown
    ∧ (Z.of_nat (String.length shown) ≤ maxLen)%Z
    ∧ ((Z.of_nat (String.length s) ≤ maxLen)%Z → shown = s)
    ∧ ((maxLen < Z.of_nat (String.length s))%Z →
         Z.of_nat (String.length shown) = maxLen
         ∧ ∃ front,
             shown = front +:+ "..."
             ∧ strings.HasPrefix s front = true
             ∧ Z.of_nat (String.length front) = (maxLen - 3)%Z).
Proof.
  intros Hwidth. unfold main_go.truncate.
  rewrite int_wrap_small by lia.
  case_bool_decide as Hfits.
  - exists s. split_and!; [done | lia | done | lia].
  - rewrite bool_decide_eq_true_2 by lia.
    assert (Z.to_nat (maxLen - 3) ≤ String.length s) as Hcut by lia.
    pose proof (length_slice_to s _ Hcut) as Hlen.
    eexists. split_and!; [done | | lia |].
    + rewrite length_append, Hlen. simpl. lia.
    + intros _. split; [rewrite length_append, Hlen; simpl; lia|].
      eexists. split_and!; [done | | lia].
      apply HasPrefix_spec. eexists.
      unfold strings.slice_to. by apply substring_cut.
Qed.

Lemma truncate_bounded_example :
  ∃ shown,
    main_go.truncate "production-network-stack" 10 = Some shown
    ∧ (Z.of_nat (String.length shown) ≤ 10)%Z.
Proof.
  destruct (truncate_bounded "production-network-stack" 10 ltac:(lia))
    as (shown & Hshown & Hlen & _).
  by exists shown.
Defined.

(** [truncate] panics exactly when the width is below three and the
    string is longer than the width. *)
Theorem truncate_panics (s : string) (maxLen : Z) :
  (- 2 ^ 63 + 3 ≤ maxLen < 2 ^ 63)%Z →
  main_go.truncate s maxLen = None
  ↔ (maxLen < 3)%Z ∧ (maxLen < Z.of_nat (String.length s))%Z.
Proof.
  intros Hrange. unfold main_go.truncate.
  rewrite int_wrap_small by lia.
  repeat case_bool_decide; split; try done; lia.
Qed.

Lemma truncate_panics_example :
  main_go.truncate "stack" 2 = None.
Proof. apply (truncate_panics "stack" 2); simpl; lia. Defined.

(** ** Pagination *)

Section pagination.
Context {pager : main_go.ListStacksPaginator}.

(** [listAllStacks] returns the pages in the order they were fetched,
    concatenated; when a call fails it returns that error and none of the
    stacks fetched before. *)
Theorem listAllStacks_pages (pages : list (list StackSummary)) (final : option error) (fuel : nat) :
  Pages main_go.NewListStacksPaginator pages final →
  length pages < fuel →
  main_go.listAllStacks fuel
  = Some (match final with
          | None => Ok (concat pages)
          | Some err => Err err
          end).
Proof.
  unfold main_go.listAllStacks.
  change (concat pages) with ([] ++ concat pages).
  generalize (@main_go.NewListStacksPaginator pager) as paginator.
  generalize (@nil StackSummary) as allStacks.
  intros allStacks paginator Hpages. revert allStacks fuel.
  induction Hpages as [p Hdone|p p' err Hmore Hnext|p p' page pages final Hmore Hnext _ IH];
    intros allStacks [|fuel] Hfuel; simpl in *; try lia.
  - by rewrite Hdone, app_nil_r.
  - by rewrite Hmore, Hnext.
  - rewrite Hmore, Hnext, IH by lia. by rewrite app_assoc.
Qed.

End pagination.

(** Two pages, then a failure: the error alone is returned. *)
Lemma listAllStacks_pages_example :
  main_go.listAllStacks
    (pager := scripted [Ok [example.storage]; Ok [example.broken]; Err "Throttling"]) 3
  = Some (Err "Throttling").
Proof.
  apply (listAllStacks_pages
           (pager := scripted [Ok [example.storage]; Ok [example.broken]; Err "Throttling"])
           [[example.storage]; [example.broken]] (Some "Throttling") 3).
  - eapply Pages_more; [reflexivity | reflexivity |].
    eapply Pages_more; [reflexivity | reflexivity |].
    eapply Pages_fail; reflexivity.
  - simpl. lia.
Defined.

(** ** More on the status filter *)

Lemma append_last_byte (a b : string) (x y : Ascii.ascii) :
  a +:+ String x "" = b +:+ String y "" → x = y.
Proof.
  revert b. induction a as [|c a IH]; intros [|d b]; simpl; intros Heq.
  - by injection Heq.
  - injection Heq as _ Heq. by destruct b.
  - injection Heq as _ Heq. by destruct a.
  - injection Heq as _ Heq. by apply (IH b).
Qed.

Lemma isActiveStatus_complete (status : string) :
  main_go.isActiveStatus status = true →
  main_go.isCompleteStatus status = true
  ∧ main_go.isDeletedStatus status = false
  ∧ main_go.isInProgressStatus status = false.
Proof.
  intros Hin%isActiveLoop_elem_of. unfold main_go.completeStates in Hin.
  repeat (apply elem_of_cons in Hin as [->|Hin]); try by vm_compute.
  by apply elem_of_nil in Hin.
Qed.

Section status_filter.
Context {lib : GoLib}.

Lemma filterLoop_None (noStatusFilter active complete deleted inProgress : bool) (nameFilter : string) (stacks filtered : list StackSummary) :
  main_go.filterLoop noStatusFilter active complete deleted inProgress nameFilter stacks filtered = None
  ↔ nameFilter ≠ "" ∧ Exists (λ stack, StackName stack = None) stacks.
Proof.
  revert filtered. induction stacks as [|stack stacks IH]; intros filtered; simpl.
  - split; [done|]. by intros [_ ?%Exists_nil].
  - rewrite Exists_cons. destruct (String.eqb_spec nameFilter "") as [Hempty|Hne]; simpl.
    + repeat case_match; rewrite IH; tauto.
    + destruct (StackName stack) as [name|]; [|tauto].
      repeat case_match; rewrite IH; intuition congruence.
Qed.

(** [filterStacks] panics exactly when a name filter is given and some
    stack of the input has no name; without a name filter the names are
    never read. *)
Theorem filterStacks_panics (stacks : list StackSummary) (active complete deleted inProgress : bool) (nameFilter : string) :
  main_go.filterStacks stacks active complete deleted inProgress nameFilter = None
  ↔ nameFilter ≠ "" ∧ Exists (λ stack, StackName stack = None) stacks.
Proof. apply filterLoop_None. Qed.

Lemma filterLoop_active_complete (deleted inProgress : bool) (nameFilter : string) (stacks filtered : list StackSummary) :
  main_go.filterLoop false true true deleted inProgress nameFilter stacks filtered
  = main_go.filterLoop false false true deleted inProgress nameFilter stacks filtered.
Proof.
  revert filtered. induction stacks as [|stack stacks IH]; intros filtered; simpl; [done|].
  destruct (main_go.isActiveStatus (StackStatus stack)) eqn:Hactive; simpl.
  - destruct (isActiveStatus_complete _ Hactive) as (-> & _ & _). simpl.
    repeat case_match; by rewrite ?IH.
  - repeat case_match; by rewrite ?IH.
Qed.

(** Every active status is a complete status, and is neither deleted nor
    in progress; so asking for the active stacks besides the complete ones
    changes nothing. *)
Theorem active_within_complete (stacks : list StackSummary) (deleted inProgress : bool) (nameFilter : string) :
  (∀ status,
     main_go.isActiveStatus status = true →
     main_go.isCompleteStatus status = true
     ∧ main_go.isDeletedStatus status = false
     ∧ main_go.isInProgressStatus status = false)
  ∧ main_go.filterStacks stacks true true deleted inProgress nameFilter
    = main_go.filterStacks stacks false true deleted inProgress nameFilter.
Proof.
  split; [apply isActiveStatus_complete|]. apply filterLoop_active_complete.
Qed.

End status_filter.

(** No status is both complete and in progress. *)
Theorem complete_excludes_in_progress (status : string) :
  main_go.isCompleteStatus status && main_go.isInProgressStatus status = false.
Proof.
  destruct (main_go.isCompleteStatus status) eqn:Hc; [|done].
  destruct (main_go.isInProgressStatus status) eqn:Hp; [|done].
  apply HasSuffix_spec in Hc as [front ->]. apply HasSuffix_spec in Hp as [front' Heq].
  change "_COMPLETE" with ("_COMPLET" +:+ "E") in Heq.
  change "_IN_PROGRESS" with ("_IN_PROGRES" +:+ "S") in Heq.
  rewrite <- !append_assoc in Heq. by apply append_last_byte in Heq.
Qed.

(** ** More on property tokens and paths *)

Lemma Cut_append (sep : Ascii.ascii) (key val : string) :
  occurs sep key = false →
  strings.Cut (key +:+ String sep val) sep = Some (key, val).
Proof.
  induction key as [|c key IH]; simpl.
  - intros _. by rewrite Ascii.eqb_refl.
  - intros [Hc Hkey]%orb_false_iff. rewrite Hc. by rewrite (IH Hkey).
Qed.

Lemma Split_no_sep (sep : Ascii.ascii) (s : string) :
  occurs sep s = false → strings.Split s sep = [s].
Proof.
  induction s as [|c s IH]; simpl; [done|].
  intros [Hc Hs]%orb_false_iff. by rewrite Hc, (IH Hs).
Qed.

Lemma Split_append (sep : Ascii.ascii) (key rest : string) :
  occurs sep key = false →
  strings.Split (key +:+ String sep rest) sep = key :: strings.Split rest sep.
Proof.
  induction key as [|c key IH]; simpl.
  - intros _. by rewrite Ascii.eqb_refl.
  - intros [Hc Hkey]%orb_false_iff. by rewrite Hc, (IH Hkey).
Qed.

Lemma SplitN2_two (prop : string) :
  occurs "="%char prop = true
  ↔ ∃ key val, strings.SplitN2 prop "="%char = [key; val].
Proof.
  destruct (SplitN2_parts prop "="%char) as [[Hnone Heq]|(k & v & Hprop & Hk & Heq)];
    rewrite Heq.
  - rewrite Hnone. split; [done | by intros (? & ? & ?)].
  - split; [by exists k, v|]. intros _. rewrite Hprop, occurs_append. simpl.
    by rewrite orb_true_r.
Qed.

(** The tokens are accepted exactly when each of them has an [=]; when
    they are refused, the token reported is the first one without [=]. *)
Theorem parsePropertyFilters_verdict (props : list string) (propertyFilters : gmap string string) :
  ((∃ parsed, cmd.parsePropertyFilters props propertyFilters = inr parsed)
   ↔ Forall (λ prop, occurs "="%char prop = true) props)
  ∧ (∀ f, cmd.parsePropertyFilters props propertyFilters = inl f →
       ∃ before prop after,
         props = before ++ prop :: after
         ∧ f = cmd.invalid_property_format prop
         ∧ occurs "="%char prop = false
         ∧ Forall (λ prop, occurs "="%char prop = true) before).
Proof.
  revert propertyFilters. induction props as [|prop props IH]; intros acc.
  - split; [by split; [|eexists] | done].
  - change (cmd.parsePropertyFilters (prop :: props) acc)
      with (match strings.SplitN2 prop "="%char with
            | [key; val] => cmd.parsePropertyFilters props (<[key := val]> acc)
            | _ => inl (cmd.invalid_property_format prop)
            end).
    rewrite Forall_cons.
    destruct (SplitN2_parts prop "="%char) as [[Hnone Heq]|(k & v & Hprop & Hk & Heq)];
      rewrite Heq.
    + split.
      * split; [by intros [? ?] | intros [Hhas _]; congruence].
      * intros f [= <-]. exists [], prop, props. by split_and!.
    + assert (occurs "="%char prop = true) as Hhas by (apply SplitN2_two; eauto).
      destruct (IH (<[k := v]> acc)) as [IHok IHbad]. split.
      * rewrite IHok. tauto.
      * intros f (before & bad & after & -> & -> & Hbad & Hbefore)%IHbad.
        exists (prop :: before), bad, after. split_and!; try done. by constructor.
Qed.

Lemma parsePropertyFilters_verdict_example :
  ∃ before after,
    ["BucketName=logs"; "Versioning"; "Tags"] = before ++ "Versioning" :: after
    ∧ Forall (λ prop, occurs "="%char prop = true) before.
Proof.
  destruct (parsePropertyFilters_verdict ["BucketName=logs"; "Versioning"; "Tags"] ∅)
    as [_ Hfirst].
  destruct (Hfirst (cmd.invalid_property_format "Versioning") eq_refl)
    as (before & prop & after & Hsplit & [= <-] & _ & Hbefore).
  by exists before, after.
Defined.

Lemma parsePropertyFilters_app (props props' : list string) (propertyFilters parsed : gmap string string) :
  cmd.parsePropertyFilters props propertyFilters = inr parsed →
  cmd.parsePropertyFilters (props ++ props') propertyFilters
  = cmd.parsePropertyFilters props' parsed.
Proof.
  revert propertyFilters. induction props as [|prop props IH]; intros acc.
  - by intros [= ->].
  - change (cmd.parsePropertyFilters (prop :: props) acc)
      with (match strings.SplitN2 prop "="%char with
            | [key; val] => cmd.parsePropertyFilters props (<[key := val]> acc)
            | _ => inl (cmd.invalid_property_format prop)
            end).
    change (cmd.parsePropertyFilters ((prop :: props) ++ props') acc)
      with (match strings.SplitN2 prop "="%char with
            | [key; val] => cmd.parsePropertyFilters (props ++ props') (<[key := val]> acc)
            | _ => inl (cmd.invalid_property_format prop)
            end).
    destruct (strings.SplitN2 prop "="%char) as [|k [|v [|]]]; try done. apply IH.
Qed.

(** A token is cut at its first [=]: the text before it is the key, the
    text after it, further [=] included, is the expected value; and a
    later token replaces an earlier one for the same key. *)
Theorem parsePropertyFilters_last_wins (props : list string) (key val : string) (parsed : gmap string string) :
  occurs "="%char key = false →
  cmd.parsePropertyFilters props ∅ = inr parsed →
  cmd.parsePropertyFilters (props ++ [key +:+ "=" +:+ val]) ∅
  = inr (<[key := val]> parsed).
Proof.
  intros Hkey Hparsed. rewrite (parsePropertyFilters_app _ _ _ _ Hparsed).
  unfold cmd.parsePropertyFilters, strings.SplitN2.
  change (key +:+ "=" +:+ val) with (key +:+ String "="%char val).
  by rewrite (Cut_append _ _ _ Hkey).
Qed.

Lemma parsePropertyFilters_last_wins_example :
  cmd.parsePropertyFilters (["Policy=a"] ++ ["Policy" +:+ "=" +:+ "x=y"]) ∅
  = inr (<["Policy" := "x=y"]> {[ "Policy" := "a" ]}).
Proof.
  apply (parsePropertyFilters_last_wins ["Policy=a"] "Policy" "x=y"); reflexivity.
Defined.

(** A path without a dot reads the property of that name; a path that
    starts with such a name and a dot descends into the mapping stored
    under it, and finds nothing when that property is absent or is not a
    mapping. *)
Theorem getNestedProperty_descends (properties : gmap string value) (key : string) :
  occurs "."%char key = false →
  cmd.getNestedProperty properties key = default VNil (properties !! key)
  ∧ ∀ rest,
      cmd.getNestedProperty properties (key +:+ "." +:+ rest)
      = match properties !! key with
        | Some (VMap nested) => cmd.getNestedProperty nested rest
        | _ => VNil
        end.
Proof.
  intros Hkey. unfold cmd.getNestedProperty. split.
  - rewrite (Split_no_sep _ _ Hkey). simpl. by destruct (properties !! key).
  - intros rest. change (key +:+ "." +:+ rest) with (key +:+ String "."%char rest).
    rewrite (Split_append _ _ _ Hkey). simpl.
    destruct (properties !! key) as [v|]; [|done].
    pose proof (Split_nonempty rest "."%char).
    destruct v; try done; by destruct (strings.Split rest "."%char).
Qed.

Lemma getNestedProperty_descends_example :
  cmd.getNestedProperty example.bucketProperties ("Versioning" +:+ "." +:+ "Status")
  = cmd.getNestedProperty {[ "Status" := VString "Enabled" ]} "Status".
Proof.
  destruct (getNestedProperty_descends example.bucketProperties "Versioning" eq_refl)
    as [_ Hnested].
  exact (Hnested "Status").
Defined.

Lemma Split_head_no_sep (path : string) (sep : Ascii.ascii) :
  ∃ part parts, strings.Split path sep = part :: parts ∧ occurs sep part = false.
Proof.
  destruct (Split_Join path sep) as [_ Hparts].
  pose proof (Split_nonempty path sep).
  destruct (strings.Split path sep) as [|part parts]; [done|].
  apply Forall_cons in Hparts as [Hpart _]. by exists part, parts.
Qed.

(** A property whose name holds a dot is out of reach of every path:
    removing it, adding it or changing it changes no lookup. *)
Theorem dotted_names_are_unreachable (properties : gmap string value) (key : string) (v : value) (path : string) :
  occurs "."%char key = true →
  cmd.getNestedProperty (delete key properties) path = cmd.getNestedProperty properties path
  ∧ cmd.getNestedProperty (<[key := v]> properties) path = cmd.getNestedProperty properties path.
Proof.
  intros Hkey. unfold cmd.getNestedProperty.
  destruct (Split_head_no_sep path "."%char) as (part & parts & -> & Hpart).
  assert (key ≠ part) as Hne by congruence.
  simpl. by rewrite lookup_delete_ne, lookup_insert_ne.
Qed.

Lemma dotted_names_are_unreachable_example :
  cmd.getNestedProperty (<["Versioning.Status" := VString "Suspended"]> example.bucketProperties)
    "Versioning.Status"
  = cmd.getNestedProperty example.bucketProperties "Versioning.Status".
Proof.
  apply (dotted_names_are_unreachable example.bucketProperties "Versioning.Status"
           (VString "Suspended") "Versioning.Status").
  reflexivity.
Defined.

(** ** More on the matchers *)

Section matcher_facts.
Context {lib : GoLib}.

Lemma checkProperties_holds (properties : gmap string value) (filters : gmap string string) :
  (∀ path expected, filters !! path = Some expected → filter_holds properties path expected) →
  ∃ matchedProps, cmd.checkProperties properties filters = (true, matchedProps).
Proof.
  intros Hall. destruct (checkProperties_cases properties filters) as [?|Hfalse]; [done|].
  unfold cmd.checkProperties in Hfalse. rewrite checkPropertiesLoop_spec in Hfalse.
  by rewrite (proj2 (forallb_filter_holdsb properties filters) Hall) in Hfalse.
Qed.

Lemma search_entry_resourceType (resourceType : string) (propertyFilters : gmap string string) (entry : string * value) (rm : cmd.resourceMatch) :
  search_entry resourceType propertyFilters entry = Some rm →
  cmd.resourceType rm = resourceType.
Proof.
  unfold search_entry. intros Hrm.
  destruct (entry.2) as [| | | | | |resourceMap|]; try done.
  destruct (resourceMap !! "Type") as [[| | | |resType| | |]|]; try done.
  destruct (String.eqb resType resourceType) eqn:Heq; [|done].
  apply String.eqb_eq in Heq. simpl in Hrm.
  repeat (case_match; try done); by injection Hrm as <-.
Qed.

Lemma omap_logicalID_sublist (f : string * value → option cmd.resourceMatch) (entries : list (string * value)) :
  (∀ entry rm, f entry = Some rm → cmd.logicalID rm = entry.1) →
  (cmd.logicalID <$> omap f entries) `sublist_of` entries.*1.
Proof.
  intros Hid. induction entries as [|entry entries IH]; simpl; [done|].
  destruct (f entry) as [rm|] eqn:Hrm; simpl.
  - rewrite (Hid _ _ Hrm). by apply sublist_skip.
  - by apply sublist_cons.
Qed.

(** The search command reports only resources of exactly the searched
    type, and reports a resource at most once; so does the list command
    for the resources it reports. *)
Theorem matches_are_typed_and_distinct (template : gmap string value) (resType resName : string) (propertyFilters : gmap string string) :
  Forall (λ rm, cmd.resourceType rm = resType)
    (cmd.search_go.searchTemplate template resType propertyFilters)
  ∧ NoDup (cmd.logicalID <$> cmd.search_go.searchTemplate template resType propertyFilters)
  ∧ NoDup (cmd.logicalID <$> cmd.list_go.searchTemplate template resType resName propertyFilters).
Proof.
  unfold cmd.search_go.searchTemplate, cmd.list_go.searchTemplate.
  destruct (template !! "Resources") as [[| | | | | |resources|]|];
    try (split_and!; [by apply Forall_nil | by apply NoDup_nil | by apply NoDup_nil]).
  rewrite search_searchResources_omap, list_searchResources_omap. simpl.
  split_and!.
  - apply Forall_forall. intros rm (entry & _ & Hrm)%list_elem_of_omap.
    by apply search_entry_resourceType in Hrm.
  - eapply sublist_NoDup; [apply (NoDup_fst_map_to_list resources)|].
    apply omap_logicalID_sublist. intros entry rm. apply search_entry_logicalID.
  - eapply sublist_NoDup; [apply (NoDup_fst_map_to_list resources)|].
    apply omap_logicalID_sublist. intros entry rm. apply list_entry_logicalID.
Qed.

(** Adding property filters never adds a resource: a resource reported
    under a set of filters is reported under every subset of it, with the
    matched properties of that subset. *)
Theorem more_filters_fewer_matches (template : gmap string value) (resourceType : string) (filters filters' : gmap string string) (rm' : cmd.resourceMatch) :
  filters ⊆ filters' →
  rm' ∈ cmd.search_go.searchTemplate template resourceType filters' →
  ∃ rm,
    rm ∈ cmd.search_go.searchTemplate template resourceType filters
    ∧ cmd.logicalID rm = cmd.logicalID rm'
    ∧ cmd.resourceType rm = cmd.resourceType rm'
    ∧ cmd.matchedProperties rm ⊆ cmd.matchedProperties rm'.
Proof.
  intros Hsub (resources & data & Htemplate & Hdata & Hrm')%elem_of_search_searchTemplate.
  assert (∃ rm, search_entry resourceType filters (cmd.logicalID rm', data) = Some rm
                ∧ cmd.resourceType rm = cmd.resourceType rm'
                ∧ cmd.matchedProperties rm ⊆ cmd.matchedProperties rm') as (rm & Hrm & Hty & Hmp).
  { unfold search_entry in *. simpl in *.
    destruct data as [| | | | | |resourceMap|]; try done.
    destruct (resourceMap !! "Type") as [[| | | |resType| | |]|]; try done.
    destruct (negb (String.eqb resType resourceType)); [done|].
    destruct (bool_decide (0 < size filters')) eqn:Hsize'.
    - destruct (resourceMap !! "Properties") as [[| | | | | |properties|]|]; try done.
      destruct (checkProperties_cases properties filters') as [[mp' Hcheck']|Hcheck'];
        rewrite Hcheck' in Hrm'; simpl in Hrm'; [|done].
      injection Hrm' as <-. simpl.
      apply checkProperties_true in Hcheck' as [Hall' Hmp'].
      destruct (bool_decide (0 < size filters)).
      + destruct (checkProperties_holds properties filters) as [mp Hcheck].
        { intros path expected Hlookup. apply Hall'.
          by eapply lookup_weaken. }
        rewrite Hcheck. simpl. eexists. split_and!; [reflexivity..|]. simpl.
        apply checkProperties_true in Hcheck as [_ Hmp].
        apply map_subseteq_spec. intros path v. rewrite Hmp, Hmp'.
        destruct (filters !! path) as [expected|] eqn:Hlookup; [|done].
        by rewrite (lookup_weaken _ _ _ _ Hlookup Hsub).
      + eexists. split_and!; [reflexivity..|]. apply map_empty_subseteq.
    - apply bool_decide_eq_false in Hsize'.
      assert (filters' = ∅) as -> by (apply map_size_empty_iff; lia).
      assert (filters = ∅) as ->.
      { apply map_eq. intros path. rewrite lookup_empty.
        destruct (filters !! path) as [expected|] eqn:Hlookup; [|done].
        pose proof (lookup_weaken _ _ _ _ Hlookup Hsub) as Hnone.
        by rewrite lookup_empty in Hnone. }
      rewrite map_size_empty. simpl. by exists rm'. }
  exists rm. pose proof (search_entry_logicalID _ _ _ _ Hrm) as Hid. simpl in Hid.
  split_and!; try done.
  apply elem_of_search_searchTemplate. exists resources, data. by rewrite Hid.
Qed.

Lemma list_entry_passes (resType resName : string) (propertyFilters : gmap string string) (entry : string * value) :
  list_entry resType resName propertyFilters entry
  = match list_entry "" "" propertyFilters entry with
    | Some rm => if passes_type_and_name resType resName rm then Some rm else None
    | None => None
    end.
Proof.
  unfold list_entry, passes_type_and_name. simpl.
  destruct (entry.2) as [| | | | | |resourceMap|]; try done.
  destruct (resourceMap !! "Type") as [[| | | |currentType| | |]|]; try done.
  destruct (bool_decide (0 < size propertyFilters)).
  - destruct (resourceMap !! "Properties") as [[| | | | | |properties|]|];
      try by repeat case_match.
    destruct (cmd.checkProperties properties propertyFilters).1; simpl;
      by destruct (String.eqb resType ""), (String.eqb currentType resType),
        (String.eqb resName ""), (strings.Contains entry.1 resName).
  - simpl.
    by destruct (String.eqb resType ""), (String.eqb currentType resType),
      (String.eqb resName ""), (strings.Contains entry.1 resName).
Qed.

(** In the list command the type and name filters only select among the
    matches of the property filters: the matches under a type and a name
    filter are those matches of the unfiltered run whose type is the type
    filter (when given) and whose logical ID contains the name filter
    (when given), in the same order. *)
Theorem list_filters_select (template : gmap string value) (resType resName : string) (propertyFilters : gmap string string) :
  cmd.list_go.searchTemplate template resType resName propertyFilters
  = List.filter (passes_type_and_name resType resName)
      (cmd.list_go.searchTemplate template "" "" propertyFilters).
Proof.
  unfold cmd.list_go.searchTemplate.
  destruct (template !! "Resources") as [[| | | | | |resources|]|]; try done.
  rewrite !list_searchResources_omap. simpl.
  induction (map_to_list resources) as [|entry entries IH]; [done|].
  change (omap ?f (entry :: entries))
    with (match f entry with Some rm => rm :: omap f entries | None => omap f entries end).
  rewrite (list_entry_passes resType resName).
  destruct (list_entry "" "" propertyFilters entry) as [rm|]; [|done].
  simpl. destruct (passes_type_and_name resType resName rm); by rewrite IH.
Qed.

(** Go leaves the order of a [range] over a map open: whatever the order
    in which the resources are visited, both commands report the same
    matches, up to their order. *)
Theorem searchResources_any_order (resType resName : string) (propertyFilters : gmap string string) (resources resources' : list (string * value)) :
  resources ≡ₚ resources' →
  cmd.search_go.searchResources resType propertyFilters resources []
  ≡ₚ cmd.search_go.searchResources resType propertyFilters resources' []
  ∧ cmd.list_go.searchResources resType resName propertyFilters resources []
    ≡ₚ cmd.list_go.searchResources resType resName propertyFilters resources' [].
Proof.
  intros Hperm. rewrite !search_searchResources_omap, !list_searchResources_omap.
  simpl. by rewrite Hperm.
Qed.

End matcher_facts.

Lemma more_filters_fewer_matches_example :
  ∃ rm,
    rm ∈ cmd.search_go.searchTemplate (lib := example.lib) example.roleTemplate
           "AWS::ServiceCatalog::CloudFormationProvisionedProduct"
           {[ "ProductName" := "IAMRole" ]}
    ∧ cmd.logicalID rm = "Role".
Proof.
  destruct (more_filters_fewer_matches (lib := example.lib) example.roleTemplate
              "AWS::ServiceCatalog::CloudFormationProvisionedProduct"
              {[ "ProductName" := "IAMRole" ]}
              {[ "ProductName" := "IAMRole"; "ProvisioningArtifactName" := "2.0.0" ]}
              {| cmd.logicalID := "Role";
                 cmd.resourceType := "AWS::ServiceCatalog::CloudFormationProvisionedProduct";
                 cmd.matchedProperties := example.roleProperties |})
    as (rm & Hin & Hid & _).
  - apply map_subseteq_spec. intros path expected [<- <-]%lookup_singleton_Some.
    reflexivity.
  - vm_compute. left.
  - by exists rm.
Defined.

Lemma searchResources_any_order_example :
  cmd.search_go.searchResources (lib := example.lib) "AWS::S3::Bucket" ∅
    [("Logs", VMap example.logsResource); ("Data", VMap example.logsResource)] []
  ≡ₚ cmd.search_go.searchResources (lib := example.lib) "AWS::S3::Bucket" ∅
    [("Data", VMap example.logsResource); ("Logs", VMap example.logsResource)] [].
Proof.
  apply (searchResources_any_order (lib := example.lib) "AWS::S3::Bucket" "" ∅).
  apply perm_swap.
Defined.

Lemma checkPropertiesLoop_Permutation_example :
  cmd.checkPropertiesLoop (lib := example.lib) example.roleProperties
    [("ProductName", "IAMRole"); ("ProvisioningArtifactName", "2.0.0")] ∅
  = cmd.checkPropertiesLoop (lib := example.lib) example.roleProperties
    [("ProvisioningArtifactName", "2.0.0"); ("ProductName", "IAMRole")] ∅.
Proof.
  apply (checkPropertiesLoop_Permutation (lib := example.lib)). apply perm_swap.
Defined.

(** ** More on the commands *)

Section command_facts.
Context {lib : GoLib} {aws : Cfn}.

Lemma searchStackTemplate_same (client : Client) (stackName resourceType : string) (propertyFilters : gmap string string) :
  resourceType ≠ "" →
  cmd.list_go.searchStackTemplate client stackName resourceType "" propertyFilters
  = cmd.search_go.searchStackTemplate client stackName resourceType propertyFilters.
Proof.
  intros Hne.
  unfold cmd.search_go.searchStackTemplate, cmd.list_go.searchStackTemplate.
  destruct (GetTemplate client stackName) as [TemplateBody|err]; [|done].
  destruct (cmd.parseTemplate (getValue TemplateBody)) as [template|err]; [|done].
  unfold cmd.search_go.searchTemplate, cmd.list_go.searchTemplate.
  destruct (template !! "Resources") as [[| | | | | |resources|]|]; try done.
  rewrite search_searchResources_omap, list_searchResources_omap. do 2 f_equal.
  apply list_omap_ext, Forall2_same_length_lookup. split; [done|].
  intros i entry entry' Hentry Hentry'. simplify_eq.
  by apply list_entry_search_entry.
Qed.

Lemma searchStacks_same (client : Client) (resourceType : string) (propertyFilters : gmap string string) (stacks : list StackSummary) (matchingStacks : list cmd.stackMatch) (log : list cmd.event) :
  resourceType ≠ "" →
  cmd.list_go.searchStacks client resourceType "" propertyFilters stacks matchingStacks log
  = cmd.search_go.searchStacks client resourceType propertyFilters stacks matchingStacks log.
Proof.
  intros Hne. revert matchingStacks log.
  induction stacks as [|stack stacks IH]; intros matchingStacks log; simpl; [done|].
  destruct (StackName stack) as [name|]; [|apply IH].
  rewrite (searchStackTemplate_same _ _ _ _ Hne).
  destruct (cmd.search_go.searchStackTemplate client name resourceType propertyFilters);
    [case_bool_decide|]; apply IH.
Qed.

(** The search of one stack fails only on the way to the template: when
    the fetch fails, when the body is empty or when neither decoder
    accepts it.  Matching never fails, whatever the template holds, and
    the two commands fail on the same stacks with the same error. *)
Theorem searchStackTemplate_fails (client : Client) (stackName resType resName : string) (propertyFilters : gmap string string) :
  ((∃ err, cmd.search_go.searchStackTemplate client stackName resType propertyFilters = Err err)
   ↔ (∃ err, GetTemplate client stackName = Err err)
     ∨ (∃ body, GetTemplate client stackName = Ok body ∧ getValue body = "")
     ∨ (∃ body err err', GetTemplate client stackName = Ok body
          ∧ json_Unmarshal (getValue body) = Err err
          ∧ yaml_Unmarshal (getValue body) = Err err'))
  ∧ (∀ err,
       cmd.list_go.searchStackTemplate client stackName resType resName propertyFilters = Err err
       ↔ cmd.search_go.searchStackTemplate client stackName resType propertyFilters = Err err).
Proof.
  unfold cmd.search_go.searchStackTemplate, cmd.list_go.searchStackTemplate,
    cmd.parseTemplate.
  destruct (GetTemplate client stackName) as [body|err].
  - destruct (String.eqb_spec (getValue body) "") as [Hempty|Hbody].
    + split; [|done]. split; [|by eexists].
      intros _. right. left. by exists body.
    + destruct (json_Unmarshal (getValue body)) as [template|e] eqn:Hjson.
      * split; [|done]. split; [by intros [? ?]|].
        intros [[? ?]|[(? & [= <-] & ?)|(? & ? & ? & [= <-] & ? & ?)]]; congruence.
      * destruct (yaml_Unmarshal (getValue body)) as [template|e'] eqn:Hyaml.
        -- split; [|done]. split; [by intros [? ?]|].
           intros [[? ?]|[(? & [= <-] & ?)|(? & ? & ? & [= <-] & ? & ?)]]; congruence.
        -- split; [|done]. split; [|by eexists].
           intros _. right. right. by exists body, e, e'.
  - split; [|done]. split; [|by eexists]. intros _. left. by exists err.
Qed.

Lemma elem_of_stack_result (client : Client) (resourceType : string) (propertyFilters : gmap string string) (stack : StackSummary) (sm : cmd.stackMatch) :
  sm ∈ stack_result client resourceType propertyFilters stack →
  cmd.resources sm ≠ []
  ∧ StackName stack = Some (cmd.stackName sm)
  ∧ cmd.search_go.searchStackTemplate client (cmd.stackName sm) resourceType propertyFilters
    = Ok (cmd.resources sm).
Proof.
  unfold stack_result. destruct (StackName stack) as [name|]; [|by intros ?%elem_of_nil].
  destruct (cmd.search_go.searchStackTemplate client name resourceType propertyFilters)
    as [[|m matches]|err] eqn:Hsearch; try by intros ?%elem_of_nil.
  by intros ->%list_elem_of_singleton.
Qed.

(** Every Stack Match of the result holds at least one resource, bears
    the name of a stack of the input and holds what the search of that
    stack returned; and the names of the result follow the order of the
    input. *)
Theorem stack_matches_are_nonempty (client : Client) (resourceType : string) (propertyFilters : gmap string string) (stacks : list StackSummary) :
  Forall (λ sm,
            cmd.resources sm ≠ []
            ∧ ∃ stack, stack ∈ stacks
                ∧ StackName stack = Some (cmd.stackName sm)
                ∧ cmd.search_go.searchStackTemplate client (cmd.stackName sm)
                    resourceType propertyFilters = Ok (cmd.resources sm))
    (cmd.search_go.searchStacks client resourceType propertyFilters stacks [] []).1
  ∧ (cmd.stackName <$>
       (cmd.search_go.searchStacks client resourceType propertyFilters stacks [] []).1)
    `sublist_of` omap StackName stacks.
Proof.
  rewrite search_searchStacks_spec. simpl. split.
  - apply Forall_forall. intros sm (stack & Hstack & Hsm)%list_elem_of_In%in_flat_map.
    apply list_elem_of_In in Hstack, Hsm.
    destruct (elem_of_stack_result _ _ _ _ _ Hsm) as (Hne & Hname & Hsearch).
    split; [done|]. by exists stack.
  - induction stacks as [|stack stacks IH]; simpl; [done|].
    rewrite fmap_app. unfold stack_result at 1.
    destruct (StackName stack) as [name|]; simpl; [|done].
    destruct (cmd.search_go.searchStackTemplate client name resourceType propertyFilters)
      as [[|m matches]|err]; simpl; first [by apply sublist_skip | by apply sublist_cons].
Qed.

(** The loop fetches the template of each named stack once, in the order
    of the input, whether or not the fetch succeeds; a stack without a
    name is not fetched.  A search that reaches the listing makes that
    call first and then these fetches, and nothing else. *)
Theorem one_fetch_per_named_stack (client : Client) (resourceType : string) (propertyFilters : gmap string string) :
  (∀ stacks matchingStacks log,
     (cmd.search_go.searchStacks client resourceType propertyFilters stacks matchingStacks log).2
     = log ++ (cmd.GetTemplateCall <$> omap StackName stacks))
  ∧ (∀ fl stacks,
       mustClient = Some client →
       cmd.parsePropertyFilters (cmd.search_go.searchProperties fl) ∅ = inr propertyFilters →
       listStacks client
         (buildStatusFilters (cmd.search_go.searchFilterAll fl)
            (cmd.search_go.searchFilterComplete fl)
            (cmd.search_go.searchFilterDeleted fl)
            (cmd.search_go.searchFilterInProgress fl)) "" "" "" = Ok stacks →
       (cmd.search_go.runSearch fl resourceType).2
       = cmd.ListStacksCall :: (cmd.GetTemplateCall <$> omap StackName stacks)).
Proof.
  assert (∀ stacks matchingStacks log,
     (cmd.search_go.searchStacks client resourceType propertyFilters stacks matchingStacks log).2
     = log ++ (cmd.GetTemplateCall <$> omap StackName stacks)) as Hlog.
  { intros stacks matchingStacks log. rewrite search_searchStacks_spec. simpl.
    f_equal. by rewrite list_fmap_omap. }
  split; [exact Hlog|].
  intros fl stacks Hclient Hfilters Hlist.
  unfold cmd.search_go.runSearch. rewrite Hclient, Hfilters, Hlist.
  case_bool_decide as Hempty.
  - by destruct stacks.
  - specialize (Hlog stacks [] [cmd.ListStacksCall]).
    by destruct (cmd.search_go.searchStacks _ _ _ _ _ _).
Qed.

(** With a resource type, no name or description filter and well-formed
    property tokens, the list command does what the search command does:
    the same calls and the same end. *)
Theorem list_with_type_is_search (fl : cmd.search_go.flags) (type : string) (namesOnly : bool) (propertyFilters : gmap string string) :
  type ≠ "" →
  cmd.parsePropertyFilters (cmd.search_go.searchProperties fl) ∅ = inr propertyFilters →
  cmd.list_go.runList (list_flags_of fl type namesOnly) []
  = cmd.search_go.runSearch fl type.
Proof.
  intros Hne Hfilters. unfold cmd.list_go.runList, cmd.search_go.runSearch. simpl.
  destruct mustClient as [client|]; [|done]. rewrite Hfilters.
  destruct (listStacks client _ "" "" "") as [stacks|err]; [|done].
  apply String.eqb_neq in Hne as Hneb. rewrite Hneb. simpl.
  unfold cmd.list_go.runResourceSearch. simpl. rewrite Hfilters.
  case_bool_decide; [done|]. by rewrite searchStacks_same.
Qed.

(** A positional argument is the name filter: with no [--name], the list
    command with the argument does what it does with [--name] set to it. *)
Theorem positional_name_is_name_flag (fl : cmd.list_go.flags) (name : string) :
  cmd.list_go.nameFilter fl = "" →
  cmd.list_go.runList fl [name] = cmd.list_go.runList (with_name fl name) [].
Proof.
  intros Hnone. unfold cmd.list_go.runList, cmd.list_go.runResourceSearch. simpl.
  by rewrite Hnone.
Qed.

End command_facts.

Lemma one_fetch_per_named_stack_example :
  (cmd.search_go.runSearch (lib := example.lib) (aws := example.aws)
     (example.searchFlags []) "AWS::S3::Bucket").2
  = [ cmd.ListStacksCall; cmd.GetTemplateCall "storage"; cmd.GetTemplateCall "broken";
      cmd.GetTemplateCall "Archive-Storage" ].
Proof.
  destruct (one_fetch_per_named_stack (lib := example.lib) (aws := example.aws) ()
              "AWS::S3::Bucket" ∅) as [_ Hcalls].
  exact (Hcalls (example.searchFlags [])
           [example.storage; example.broken; example.archive] eq_refl eq_refl eq_refl).
Defined.

Lemma list_with_type_is_search_example :
  cmd.list_go.runList (lib := example.lib) (aws := example.aws)
    (list_flags_of (example.searchFlags ["Versioning.Status=Enabled"]) "AWS::S3::Bucket" false) []
  = cmd.search_go.runSearch (lib := example.lib) (aws := example.aws)
      (example.searchFlags ["Versioning.Status=Enabled"]) "AWS::S3::Bucket".
Proof.
  apply (list_with_type_is_search (lib := example.lib) (aws := example.aws)
           (example.searchFlags ["Versioning.Status=Enabled"]) "AWS::S3::Bucket" false
           {[ "Versioning.Status" := "Enabled" ]}).
  - discriminate.
  - reflexivity.
Defined.

Lemma positional_name_is_name_flag_example :
  cmd.list_go.runList (lib := example.lib) (aws := example.aws)
    (example.listFlags "" []) ["storage"]
  = cmd.list_go.runList (lib := example.lib) (aws := example.aws)
      (with_name (example.listFlags "" []) "storage") [].
Proof.
  apply (positional_name_is_name_flag (lib := example.lib) (aws := example.aws)).
  reflexivity.
Defined.

(** With no name filter, the default view and the view of the deleted
    stacks together show every stack: what the default view hides, the
    [deleted] flag shows. *)
Theorem default_and_deleted_views_cover {lib : GoLib} (stacks : list StackSummary) (stack : StackSummary) :
  stack ∈ stacks →
  (∃ shown, main_go.filterStacks stacks false false false false "" = Some shown
            ∧ stack ∈ shown)
  ∨ (∃ shown, main_go.filterStacks stacks false false true false "" = Some shown
              ∧ stack ∈ shown).
Proof.
  intros Hin%list_elem_of_In. unfold main_go.filterStacks.
  destruct (strings.HasPrefix (StackStatus stack) "DELETE_COMPLETE") eqn:Hgone.
  - right. eexists. split; [by apply (filterLoop_spec false false true false); left|].
    apply list_elem_of_In, filter_In. split; [done|].
    unfold kept, name_kept, status_kept, main_go.isDeletedStatus. simpl.
    apply HasPrefix_spec in Hgone as [rest ->].
    rewrite orb_false_r. apply HasPrefix_spec. by exists ("COMPLETE" +:+ rest).
  - left. eexists. split; [by apply (filterLoop_spec false false false false); left|].
    apply list_elem_of_In, filter_In. split; [done|].
    unfold kept, name_kept, status_kept. simpl. by rewrite Hgone.
Qed.

Lemma default_and_deleted_views_cover_example :
  (∃ shown, main_go.filterStacks (lib := example.lib)
              [example.storage; example.identity] false false false false "" = Some shown
            ∧ example.identity ∈ shown)
  ∨ (∃ shown, main_go.filterStacks (lib := example.lib)
                [example.storage; example.identity] false false true false "" = Some shown
              ∧ example.identity ∈ shown).
Proof.
  apply (default_and_deleted_views_cover (lib := example.lib)).
  apply elem_of_cons. right. apply elem_of_cons. by left.
Defined.
